(** * EdTech platform backend: wallet, enrollment and quiz grading

    A shallow embedding of the request handlers of [main.py] over an
    explicit document store, together with the properties of quiz grading,
    lesson unlocking, enrollment and the coin/points wallet.

    Conventions of the embedding:
    - a MongoDB collection is a list of documents in insertion order;
      [find_one] returns the first match, [update_one] rewrites the first
      match, and an upsert that matches nothing appends a document;
    - a field that a handler reads with [.get(key, default)] is an [option];
      a stored [null] and an absent field are both [None] (no handler
      distinguishes them);
    - Python [int] is [Z]; the one floating-point expression of the program,
      [int((score / max_points) * 100)], is evaluated in IEEE binary64
      through the reference implementation [SpecFloat] of the standard
      library;
    - a handler is a function from the store to a response (or an error)
      and the store it leaves behind;
    - the store keeps 64-bit integers and its driver refuses to encode a
      larger one; the embedding keeps unbounded integers, so a theorem
      which says that a request succeeds assumes that the integers it
      writes are in the 64-bit range ([int64]). *)

From Stdlib Require Import ZArith NArith List Bool String Ascii Lia.
From Stdlib Require Import DecimalString.
From Stdlib Require Import Sorting.Sorted Sorting.Permutation.
From Stdlib Require Import Floats.SpecFloat.
Import ListNotations.
Local Open Scope string_scope.
Local Open Scope list_scope.
Local Open Scope Z_scope.

(** ** Python exceptions that are not HTTP errors *)

Inductive pyexn :=
| ZeroDivisionError
| OverflowError
| ValueError
| AttributeError.

(** ** Python floats *)

Module PyFloat.

(** CPython's [float] is IEEE 754 binary64. *)
Definition prec : Z := 53.
Definition emax : Z := 1024.

Definition float := spec_float.

(** The value of an integer as an exact significand with exponent 0.  It is
    used as an operand of [SFdiv] and [SFmul], which round their exact
    result once; for [100] and for every integer below [2^53] it is the
    float CPython converts the integer to. *)
Definition float_of_int (z : Z) : float :=
  match z with
  | Z0 => S754_zero false
  | Zpos p => S754_finite false p 0
  | Zneg p => S754_finite true p 0
  end.

(** [a / b] on two [int]s: the correctly rounded quotient;
    [ZeroDivisionError] on a zero divisor and [OverflowError] when the
    quotient exceeds the range of a float. *)
Definition int_true_divide (a b : Z) : pyexn + float :=
  if b =? 0 then inl ZeroDivisionError
  else match SFdiv prec emax (float_of_int a) (float_of_int b) with
       | S754_infinity _ | S754_nan => inl OverflowError
       | x => inr x
       end.

(** [x * y] on floats. *)
Definition float_mul (x y : float) : float := SFmul prec emax x y.

(** [int(x)]: truncation toward zero; [Z.shiftl] by a negative amount
    shifts right, which on a positive significand drops the fraction. *)
Definition int_of_float (x : float) : pyexn + Z :=
  match x with
  | S754_zero _ => inr 0
  | S754_finite s m e => inr (cond_Zopp s (Z.shiftl (Z.pos m) e))
  | S754_infinity _ => inl OverflowError
  | S754_nan => inl ValueError
  end.

(** [int((score / max_points) * 100)] *)
Definition percent (score max_points : Z) : pyexn + Z :=
  match int_true_divide score max_points with
  | inl e => inl e
  | inr x => int_of_float (float_mul x (float_of_int 100))
  end.

(** A float of sign [s] whose magnitude is at most [c * 2^u * 2^-1074]. *)
Definition bounded_by (s : bool) (c u : Z) (x : float) : Prop :=
  match x with
  | S754_zero s' => s' = s
  | S754_finite s' m e =>
      s' = s /\ -1074 <= e /\ Z.pos m * 2 ^ (e + 1074) <= c * 2 ^ u
  | _ => False
  end.

(** The rounding and sticky bits of a shifted significand: some nonzero bit
    was shifted out. *)
Definition inexact (mrs : shr_record) : bool := shr_r mrs || shr_s mrs.

End PyFloat.

(** ** HTTP errors and handler results *)

Inductive error :=
| HTTPException (status_code : Z) (detail : string)
| ServerError (e : pyexn).

Definition result (A : Type) : Type := error + A.

(** [str(n)] for an [int] *)
Definition str_of_int (z : Z) : string := NilZero.string_of_int (Z.to_int z).

Definition dflt {A} (d : A) (o : option A) : A :=
  match o with Some x => x | None => d end.

(** ** bson.ObjectId

    An [ObjectId] is kept as the text [str(oid)] prints: two lower-case
    hexadecimal digits for each of its bytes, 24 digits for the 12-byte
    identifiers the store generates.  [ObjectId(s)] accepts a string of
    length 24 that [bytes.fromhex] can read, and raises [InvalidId]
    otherwise. *)

Definition ObjectId := string.

Definition is_lower_hex (c : ascii) : bool :=
  let n := nat_of_ascii c in
  ((48 <=? n) && (n <=? 57) || (97 <=? n) && (n <=? 102))%nat.

Definition is_hex (c : ascii) : bool :=
  let n := nat_of_ascii c in
  (is_lower_hex c || (65 <=? n) && (n <=? 70))%nat.

Definition lower (c : ascii) : ascii :=
  let n := nat_of_ascii c in
  if ((65 <=? n) && (n <=? 90))%nat then ascii_of_nat (n + 32) else c.

Fixpoint map_string (f : ascii -> ascii) (s : string) : string :=
  match s with
  | EmptyString => EmptyString
  | String c s' => String (f c) (map_string f s')
  end.

Fixpoint forall_string (f : ascii -> bool) (s : string) : bool :=
  match s with
  | EmptyString => true
  | String c s' => f c && forall_string f s'
  end.

(** ASCII white space: space, tab, line feed, vertical tab, form feed and
    carriage return. *)
Definition is_space (c : ascii) : bool :=
  let n := nat_of_ascii c in
  ((n =? 32) || (9 <=? n) && (n <=? 13))%nat.

(** [bytes.fromhex(s)], printed as the hexadecimal text of the bytes it
    returns: white space is skipped before each byte, a byte is two
    hexadecimal digits side by side, anything else is an error. *)
Fixpoint fromhex (s : string) : option string :=
  match s with
  | EmptyString => Some EmptyString
  | String c rest =>
      if is_space c then fromhex rest
      else
        match rest with
        | String d rest' =>
            if is_hex c && is_hex d then
              match fromhex rest' with
              | Some t => Some (String (lower c) (String (lower d) t))
              | None => None
              end
            else None
        | EmptyString => None
        end
  end.

Definition ObjectId_of_str (s : string) : option ObjectId :=
  if (String.length s =? 24)%nat then fromhex s else None.

(** No character of the text is white space. *)
Definition no_space (s : string) : bool :=
  forall_string (fun c => negb (is_space c)) s.

Definition canonical (o : ObjectId) : bool :=
  (String.length o =? 24)%nat && forall_string is_lower_hex o.

Definition hex_digit (n : N) : ascii :=
  nth (N.to_nat n)
      ["0"; "1"; "2"; "3"; "4"; "5"; "6"; "7"; "8"; "9";
       "a"; "b"; "c"; "d"; "e"; "f"]%char "0"%char.

Fixpoint hex_of (digits : nat) (n : N) (acc : string) : string :=
  match digits with
  | O => acc
  | S d => hex_of d (n / 16)%N (String (hex_digit (n mod 16)%N) acc)
  end.

(** The identifier the store generates for its [n]-th inserted document. *)
Definition generated_id (n : N) : ObjectId := hex_of 24 n EmptyString.

(** ** Documents (schemas.py) *)

Record UserDoc := {
  u_id : ObjectId;
  u_name : string;
  u_email : string;
  u_phone : option string;
  u_role : option string;
  u_coins : option Z;
  u_points : option Z
}.

Record LessonDoc := {
  l_id : ObjectId;
  l_course_id : string;
  l_title : string;
  l_order : option Z;
  l_is_free_preview : bool
}.

Record QuestionDoc := {
  q_prompt : string;
  q_options : list string;
  q_correct_index : option Z;
  q_points : option Z
}.

Record QuizDoc := {
  qz_id : ObjectId;
  qz_lesson_id : string;
  qz_questions : option (list QuestionDoc);
  qz_pass_percentage : option Z
}.

Record EnrollmentDoc := {
  e_id : ObjectId;
  e_user_id : string;
  e_course_id : string;
  e_status : string
}.

Record LessonProgressDoc := {
  lp_id : ObjectId;
  lp_user_id : string;
  lp_course_id : option string;
  lp_lesson_id : string;
  lp_is_unlocked : option bool;
  lp_is_completed : option bool;
  lp_quiz_score : option Z;
  lp_quiz_total : option Z
}.

Record TransactionDoc := {
  t_id : ObjectId;
  t_user_id : string;
  t_type : string;
  t_amount : Z;
  t_status : string;
  t_reference : option string
}.

Record NotificationDoc := {
  n_id : ObjectId;
  n_user_id : string;
  n_title : string;
  n_message : string;
  n_type : string;
  n_is_read : bool
}.

(** ** The document store *)

Record Store := {
  user : list UserDoc;
  lesson : list LessonDoc;
  quiz : list QuizDoc;
  enrollment : list EnrollmentDoc;
  lessonprogress : list LessonProgressDoc;
  transaction : list TransactionDoc;
  notification : list NotificationDoc;
  next_id : N
}.

(** [update_one(filter, update)]: rewrite the first document matching
    [p]; [None] when no document matches. *)
Fixpoint update_first {A} (p : A -> bool) (f : A -> A) (l : list A)
  : option (list A) :=
  match l with
  | [] => None
  | x :: rest =>
      if p x then Some (f x :: rest)
      else option_map (cons x) (update_first p f rest)
  end.

(** [find_one(filter, sort=[(key, 1)])]: the first document among those
    with the least key. *)
Fixpoint first_min {A} (lt : A -> A -> bool) (l : list A) : option A :=
  match l with
  | [] => None
  | x :: rest =>
      match first_min lt rest with
      | None => Some x
      | Some y => if lt y x then Some y else Some x
      end
  end.

(** Ascending order on an optional integer field: an absent field sorts
    before every number. *)
Definition order_lt (a b : option Z) : bool :=
  match a, b with
  | None, Some _ => true
  | Some x, Some y => x <? y
  | _, None => false
  end.

Definition lp_key (user_id lesson_id : string) (lp : LessonProgressDoc)
  : bool :=
  (lp_user_id lp =? user_id)%string && (lp_lesson_id lp =? lesson_id)%string.

Definition set_user (db : Store) (us : list UserDoc) : Store :=
  {| user := us; lesson := lesson db; quiz := quiz db;
     enrollment := enrollment db; lessonprogress := lessonprogress db;
     transaction := transaction db; notification := notification db;
     next_id := next_id db |}.

Definition set_lessonprogress (db : Store) (lps : list LessonProgressDoc)
  (n : N) : Store :=
  {| user := user db; lesson := lesson db; quiz := quiz db;
     enrollment := enrollment db; lessonprogress := lps;
     transaction := transaction db; notification := notification db;
     next_id := n |}.

(** Modelled from the spec: [create_document] of [database.py], which is
    not among the sources.  The spec's store keeps "persistent collections
    of records ... keyed by generated identifiers" and its handlers
    "append" a record: the document is added to its collection under a
    fresh identifier, whose text is returned. *)
Definition create_enrollment (user_id course_id status : string)
  (db : Store) : string * Store :=
  let i := generated_id (next_id db) in
  (i, {| user := user db; lesson := lesson db; quiz := quiz db;
         enrollment := enrollment db ++
           [{| e_id := i; e_user_id := user_id; e_course_id := course_id;
               e_status := status |}];
         lessonprogress := lessonprogress db;
         transaction := transaction db; notification := notification db;
         next_id := N.succ (next_id db) |}).

(** Modelled from the spec: [create_document] on the [lessonprogress]
    collection. *)
Definition create_lessonprogress (mk : ObjectId -> LessonProgressDoc)
  (db : Store) : string * Store :=
  let i := generated_id (next_id db) in
  (i, set_lessonprogress db (lessonprogress db ++ [mk i])
        (N.succ (next_id db))).

(** Modelled from the spec: [create_document] on the [transaction]
    collection. *)
Definition create_transaction (mk : ObjectId -> TransactionDoc)
  (db : Store) : string * Store :=
  let i := generated_id (next_id db) in
  (i, {| user := user db; lesson := lesson db; quiz := quiz db;
         enrollment := enrollment db; lessonprogress := lessonprogress db;
         transaction := transaction db ++ [mk i];
         notification := notification db;
         next_id := N.succ (next_id db) |}).

(** Modelled from the spec: [create_document] on the [notification]
    collection. *)
Definition create_notification (mk : ObjectId -> NotificationDoc)
  (db : Store) : string * Store :=
  let i := generated_id (next_id db) in
  (i, {| user := user db; lesson := lesson db; quiz := quiz db;
         enrollment := enrollment db; lessonprogress := lessonprogress db;
         transaction := transaction db;
         notification := notification db ++ [mk i];
         next_id := N.succ (next_id db) |}).

(** [db.lessonprogress.update_one({user_id, lesson_id}, {"$set": ...},
    upsert=True)]: [f] applies the [$set] to the first match; [mk] builds
    the inserted document from the filter's fields and the [$set]. *)
Definition upsert_lessonprogress (user_id lesson_id : string)
  (f : LessonProgressDoc -> LessonProgressDoc)
  (mk : ObjectId -> LessonProgressDoc) (db : Store) : Store :=
  match update_first (lp_key user_id lesson_id) f (lessonprogress db) with
  | Some lps => set_lessonprogress db lps (next_id db)
  | None =>
      set_lessonprogress db
        (lessonprogress db ++ [mk (generated_id (next_id db))])
        (N.succ (next_id db))
  end.

(** [db.user.update_one({"_id": id}, {"$inc": ...})]: no upsert.  The
    balances are kept as unbounded integers; the store refuses an increment
    or a sum outside [int64]. *)
Definition update_user (id : ObjectId) (f : UserDoc -> UserDoc)
  (db : Store) : Store :=
  match update_first (fun u => (u_id u =? id)%string) f (user db) with
  | Some us => set_user db us
  | None => db
  end.

Definition find_user (db : Store) (id : ObjectId) : option UserDoc :=
  find (fun u => (u_id u =? id)%string) (user db).

(** ** Helpers (main.py, lines 30-53) *)

Definition oid (s : string) : result ObjectId :=
  match ObjectId_of_str s with
  | Some o => inr o
  | None => inl (HTTPException 400 "Invalid id")
  end.

Definition get_user_or_404 (user_id : string) (db : Store)
  : result UserDoc :=
  match oid user_id with
  | inl e => inl e
  | inr o =>
      match find_user db o with
      | None => inl (HTTPException 401 "Invalid user")
      | Some u => inr u
      end
  end.

Definition current_user (x_user_id : option string) (db : Store)
  : result UserDoc :=
  match x_user_id with
  | None | Some EmptyString =>
      inl (HTTPException 401 "Missing x-user-id header")
  | Some s => get_user_or_404 s db
  end.

(** ** Catalog: get_quiz (main.py, lines 158-165) *)

Record QuizView := {
  qv_id : option string;
  qv_lesson_id : string;
  qv_questions : option (list QuestionDoc);
  qv_pass_percentage : option Z
}.

Definition find_quiz (db : Store) (lesson_id : string) : option QuizDoc :=
  find (fun q => (qz_lesson_id q =? lesson_id)%string) (quiz db).

Definition get_quiz (lesson_id : string) (db : Store) : result QuizView :=
  match find_quiz db lesson_id with
  | None =>
      inr {| qv_id := None; qv_lesson_id := lesson_id;
             qv_questions := Some []; qv_pass_percentage := Some 60 |}
  | Some q =>
      inr {| qv_id := Some (qz_id q); qv_lesson_id := qz_lesson_id q;
             qv_questions := qz_questions q;
             qv_pass_percentage := qz_pass_percentage q |}
  end.

(** ** Enrollment (main.py, lines 179-197) *)

Record Enrollment := {
  enr_user_id : string;
  enr_course_id : string;
  enr_status : string
}.

Inductive EnrollResponse :=
| AlreadyEnrolled
| Enrolled (enrollment_id : string).

Definition find_enrollment (db : Store) (user_id course_id : string)
  : option EnrollmentDoc :=
  find (fun e => (e_user_id e =? user_id)%string &&
                 (e_course_id e =? course_id)%string) (enrollment db).

(** [db.lesson.find_one({"course_id": c}, sort=[("order", 1)])] *)
Definition first_lesson (db : Store) (course_id : string)
  : option LessonDoc :=
  first_min (fun a b => order_lt (l_order a) (l_order b))
    (filter (fun l => (l_course_id l =? course_id)%string) (lesson db)).

Definition enroll (enr : Enrollment) (user : UserDoc) (db : Store)
  : result EnrollResponse * Store :=
  if negb (u_id user =? enr_user_id enr)%string then
    (inl (HTTPException 403 "Cannot enroll for another user"), db)
  else
    match find_enrollment db (enr_user_id enr) (enr_course_id enr) with
    | Some _ => (inr AlreadyEnrolled, db)
    | None =>
        let '(eid, db1) :=
          create_enrollment (enr_user_id enr) (enr_course_id enr)
            (enr_status enr) db in
        match first_lesson db1 (enr_course_id enr) with
        | Some first =>
            let '(_, db2) :=
              create_lessonprogress
                (fun i =>
                   {| lp_id := i; lp_user_id := enr_user_id enr;
                      lp_course_id := Some (enr_course_id enr);
                      lp_lesson_id := l_id first;
                      lp_is_unlocked := Some true;
                      lp_is_completed := Some false;
                      lp_quiz_score := None; lp_quiz_total := None |})
                db1 in
            (inr (Enrolled eid), db2)
        | None => (inr (Enrolled eid), db1)
        end
    end.

(** ** Quiz submission (main.py, lines 210-247) *)

Record QuizSubmission := { answers : list Z }.

Record QuizResult := {
  score : Z;
  total : Z;
  percentage : Z;
  passed : bool
}.

(** [answers[i] == q.get("correct_index")] *)
Definition answer_matches (a : Z) (correct_index : option Z) : bool :=
  match correct_index with
  | Some c => a =? c
  | None => false
  end.

(** The loop of lines 221-224, entered at index [i] with the score so
    far. *)
Fixpoint score_loop (i : nat) (questions : list QuestionDoc)
  (ans : list Z) (acc : Z) : Z :=
  match questions with
  | [] => acc
  | q :: rest =>
      let acc' :=
        if (i <? List.length ans)%nat &&
           answer_matches (nth i ans 0) (q_correct_index q)
        then acc + dflt 1 (q_points q) else acc in
      score_loop (S i) rest ans acc'
  end.

(** [sum(q.get("points", 1) for q in questions)] *)
Fixpoint sum_points (questions : list QuestionDoc) : Z :=
  match questions with
  | [] => 0
  | q :: rest => dflt 1 (q_points q) + sum_points rest
  end.

Definition find_lesson (db : Store) (o : ObjectId) : option LessonDoc :=
  find (fun l => (l_id l =? o)%string) (lesson db).

(** [db.lesson.find_one({"course_id": c, "order": {"$gt": n}},
    sort=[("order", 1)])]: [$gt] matches only documents that have a
    number in the field. *)
Definition next_lesson (db : Store) (l : LessonDoc) : option LessonDoc :=
  first_min (fun a b => order_lt (l_order a) (l_order b))
    (filter (fun x => (l_course_id x =? l_course_id l)%string &&
                      match l_order x with
                      | Some o => dflt 0 (l_order l) <? o
                      | None => false
                      end) (lesson db)).

Definition set_completed (sc mx : Z) (lp : LessonProgressDoc)
  : LessonProgressDoc :=
  {| lp_id := lp_id lp; lp_user_id := lp_user_id lp;
     lp_course_id := lp_course_id lp; lp_lesson_id := lp_lesson_id lp;
     lp_is_unlocked := lp_is_unlocked lp;
     lp_is_completed := Some true;
     lp_quiz_score := Some sc; lp_quiz_total := Some mx |}.

Definition set_unlocked (user_id course_id lesson_id : string)
  (lp : LessonProgressDoc) : LessonProgressDoc :=
  {| lp_id := lp_id lp; lp_user_id := user_id;
     lp_course_id := Some course_id; lp_lesson_id := lesson_id;
     lp_is_unlocked := Some true;
     lp_is_completed := lp_is_completed lp;
     lp_quiz_score := lp_quiz_score lp;
     lp_quiz_total := lp_quiz_total lp |}.

(** Lines 229-233: the upsert of the submitted lesson's progress.  The
    score and the total are kept as unbounded integers; the driver refuses
    to write one outside [int64]. *)
Definition record_completion (user_id lesson_id : string)
  (score max_points : Z) (db : Store) : Store :=
  upsert_lessonprogress user_id lesson_id
    (set_completed score max_points)
    (fun i =>
       {| lp_id := i; lp_user_id := user_id;
          lp_course_id := None; lp_lesson_id := lesson_id;
          lp_is_unlocked := None;
          lp_is_completed := Some true;
          lp_quiz_score := Some score;
          lp_quiz_total := Some max_points |}) db.

(** Lines 242-246: the upsert that unlocks a lesson. *)
Definition unlock_lesson (user_id course_id lesson_id : string)
  (db : Store) : Store :=
  upsert_lessonprogress user_id lesson_id
    (set_unlocked user_id course_id lesson_id)
    (fun i =>
       {| lp_id := i; lp_user_id := user_id;
          lp_course_id := Some course_id;
          lp_lesson_id := lesson_id;
          lp_is_unlocked := Some true;
          lp_is_completed := None;
          lp_quiz_score := None;
          lp_quiz_total := None |}) db.

Definition submit_quiz (lesson_id : string) (payload : QuizSubmission)
  (user : UserDoc) (db : Store) : result QuizResult * Store :=
  match find_quiz db lesson_id with
  | None => (inl (HTTPException 404 "Quiz not found"), db)
  | Some quiz =>
      let questions := dflt [] (qz_questions quiz) in
      let score := score_loop 0 questions (answers payload) 0 in
      let max_points :=
        let s := sum_points questions in if s =? 0 then 1 else s in
      match PyFloat.percent score max_points with
      | inl e => (inl (ServerError e), db)
      | inr pct =>
          let db1 :=
            record_completion (u_id user) lesson_id score max_points db in
          let passed := dflt 60 (qz_pass_percentage quiz) <=? pct in
          let response :=
            {| score := score; total := max_points; percentage := pct;
               passed := passed |} in
          if passed then
            match oid lesson_id with
            | inl e => (inl e, db1)
            | inr o =>
                match find_lesson db1 o with
                | None => (inr response, db1)
                | Some lesson =>
                    match next_lesson db1 lesson with
                    | None => (inr response, db1)
                    | Some nxt =>
                        (inr response,
                         unlock_lesson (u_id user) (l_course_id lesson)
                           (l_id nxt) db1)
                    end
                end
            end
          else (inr response, db1)
      end
  end.

(** ** Progress listings (main.py, lines 250-258 and 353-358) *)

Definition my_progress (course_id : option string) (user : UserDoc)
  (db : Store) : list LessonProgressDoc :=
  filter (fun lp =>
            (lp_user_id lp =? u_id user)%string &&
            match course_id with
            | None | Some EmptyString => true
            | Some c =>
                match lp_course_id lp with
                | Some c' => (c' =? c)%string
                | None => false
                end
            end) (lessonprogress db).

Definition admin_reports_progress (course_id : string) (db : Store)
  : list LessonProgressDoc :=
  filter (fun lp =>
            match lp_course_id lp with
            | Some c' => (c' =? course_id)%string
            | None => false
            end) (lessonprogress db).

(** ** Wallet (main.py, lines 264-302) *)

Definition COIN_TO_POINTS : Z := 100.

Record BuyCoinsRequest := { br_coins : Z; br_payment_provider : string }.

Record BuyCoinsResponse := { bc_coins : Z; bc_message : string }.

Definition inc_coins (n : Z) (u : UserDoc) : UserDoc :=
  {| u_id := u_id u; u_name := u_name u; u_email := u_email u;
     u_phone := u_phone u; u_role := u_role u;
     u_coins := Some (dflt 0 (u_coins u) + n); u_points := u_points u |}.

Definition inc_points_coins (dp dc : Z) (u : UserDoc) : UserDoc :=
  {| u_id := u_id u; u_name := u_name u; u_email := u_email u;
     u_phone := u_phone u; u_role := u_role u;
     u_coins := Some (dflt 0 (u_coins u) + dc);
     u_points := Some (dflt 0 (u_points u) + dp) |}.

Definition buy_coins (payload : BuyCoinsRequest) (user : UserDoc)
  (db : Store) : result BuyCoinsResponse * Store :=
  if br_coins payload <=? 0 then
    (inl (HTTPException 400 "Invalid coin amount"), db)
  else
    let db1 := update_user (u_id user) (inc_coins (br_coins payload)) db in
    let '(_, db2) :=
      create_transaction
        (fun i => {| t_id := i; t_user_id := u_id user;
                     t_type := "buy_coins"; t_amount := br_coins payload;
                     t_status := "success";
                     t_reference := Some "PAY-MOCK" |}) db1 in
    let '(_, db3) :=
      create_notification
        (fun i => {| n_id := i; n_user_id := u_id user;
                     n_title := "Payment Successful";
                     n_message :=
                       ("Added " ++ str_of_int (br_coins payload)
                        ++ " coins")%string;
                     n_type := "success"; n_is_read := false |}) db2 in
    match find_user db3 (u_id user) with
    | None => (inl (ServerError AttributeError), db3)
    | Some fresh =>
        (inr {| bc_coins := dflt 0 (u_coins fresh);
                bc_message := "Coins added" |}, db3)
    end.

Record ExchangePointsRequest := { er_points : Z }.

Record ExchangePointsResponse := { ex_coins : Z; ex_points : Z }.

Definition exchange_points (payload : ExchangePointsRequest)
  (user : UserDoc) (db : Store) : result ExchangePointsResponse * Store :=
  if er_points payload <=? 0 then
    (inl (HTTPException 400 "Invalid points"), db)
  else
    let coins := er_points payload / COIN_TO_POINTS in
    if coins <=? 0 then
      (inl (HTTPException 400 "Not enough points for 1 coin"), db)
    else
      let db1 :=
        update_user (u_id user)
          (inc_points_coins (- coins * COIN_TO_POINTS) coins) db in
      let '(_, db2) :=
        create_transaction
          (fun i => {| t_id := i; t_user_id := u_id user;
                       t_type := "exchange_points";
                       t_amount := er_points payload;
                       t_status := "success"; t_reference := None |}) db1 in
      let '(_, db3) :=
        create_notification
          (fun i => {| n_id := i; n_user_id := u_id user;
                       n_title := "Exchange Successful";
                       n_message :=
                         ("Converted "
                          ++ str_of_int (coins * COIN_TO_POINTS)
                          ++ " points to " ++ str_of_int coins
                          ++ " coins")%string;
                       n_type := "success"; n_is_read := false |}) db2 in
      match find_user db3 (u_id user) with
      | None => (inl (ServerError AttributeError), db3)
      | Some fresh =>
          (inr {| ex_coins := dflt 0 (u_coins fresh);
                  ex_points := dflt 0 (u_points fresh) |}, db3)
      end.

(** ** Specification-level notions *)

(** The percentage as the specification words it, "(score/total)*100
    truncated to an integer", in exact arithmetic. *)
Definition percentage_spec (score total : Z) : Z :=
  Z.quot (score * 100) total.

(** The score as the specification words it: the sum, over the question
    indices [i], of the question's points when the answer submitted at [i]
    is the question's correct index. *)
Fixpoint score_spec (i : nat) (questions : list QuestionDoc) (ans : list Z)
  : Z :=
  match questions with
  | [] => 0
  | q :: rest =>
      match nth_error ans i, q_correct_index q with
      | Some a, Some c => if a =? c then dflt 1 (q_points q) else 0
      | _, _ => 0
      end + score_spec (S i) rest ans
  end.

(** The unlock state of a lesson for a user: the flag of the progress
    record the store finds for the pair. *)
Definition is_unlocked (db : Store) (user_id lesson_id : string) : bool :=
  match find (lp_key user_id lesson_id) (lessonprogress db) with
  | Some lp => dflt false (lp_is_unlocked lp)
  | None => false
  end.

(** [nxt] is a lesson of the course of [l] with the lowest order strictly
    greater than the order of [l]. *)
Definition lowest_greater (db : Store) (l nxt : LessonDoc) : Prop :=
  In nxt (lesson db) /\ l_course_id nxt = l_course_id l /\
  exists o, l_order nxt = Some o /\ dflt 0 (l_order l) < o /\
    forall x o', In x (lesson db) -> l_course_id x = l_course_id l ->
      l_order x = Some o' -> dflt 0 (l_order l) < o' -> o <= o'.


(** An integer the store can hold. *)
Definition int64 (z : Z) : Prop := - 2 ^ 63 <= z < 2 ^ 63.



(** Identifiers of lessons are canonical and unique, as the store
    guarantees for [_id]. *)
Definition lesson_ids_ok (db : Store) : Prop :=
  NoDup (map l_id (lesson db)) /\
  Forall (fun l => canonical (l_id l) = true) (lesson db).

(** ** A small store used in the examples *)

Definition learner : UserDoc :=
  {| u_id := "650000000000000000000001"; u_name := "Learner 9999";
     u_email := "user9999@example.com"; u_phone := Some "9999999999";
     u_role := Some "student"; u_coins := Some 0; u_points := Some 0 |}.

Definition lesson_0 : LessonDoc :=
  {| l_id := "6500000000000000000000a0";
     l_course_id := "6500000000000000000000c0"; l_title := "Numbers";
     l_order := Some 0; l_is_free_preview := true |}.

Definition lesson_1 : LessonDoc :=
  {| l_id := "6500000000000000000000a1";
     l_course_id := "6500000000000000000000c0"; l_title := "Fractions";
     l_order := Some 1; l_is_free_preview := false |}.

Definition lesson_2 : LessonDoc :=
  {| l_id := "6500000000000000000000a2";
     l_course_id := "6500000000000000000000c0"; l_title := "Decimals";
     l_order := Some 2; l_is_free_preview := false |}.

Definition question (correct points : Z) : QuestionDoc :=
  {| q_prompt := "?"; q_options := ["a"; "b"; "c"];
     q_correct_index := Some correct; q_points := Some points |}.

(** Two questions worth 29 and 71 points; the pass mark is 29. *)
Definition quiz_0 : QuizDoc :=
  {| qz_id := "6500000000000000000000b0"; qz_lesson_id := l_id lesson_0;
     qz_questions := Some [question 0 29; question 0 71];
     qz_pass_percentage := Some 29 |}.

(** A question worth 2 points and one worth -1 point. *)
Definition quiz_1 : QuizDoc :=
  {| qz_id := "6500000000000000000000b1"; qz_lesson_id := l_id lesson_1;
     qz_questions := Some [question 0 2; question 0 (-1)];
     qz_pass_percentage := Some 60 |}.

Definition sample_store : Store :=
  {| user := [learner]; lesson := [lesson_0; lesson_1; lesson_2];
     quiz := [quiz_0; quiz_1]; enrollment := []; lessonprogress := [];
     transaction := []; notification := []; next_id := 256 |}.

(** ** Dependencies of the routes (main.py, lines 50-53) *)

(** [user.get("role") not in ("admin", "instructor")] *)
Definition admin_required (user : UserDoc) : result UserDoc :=
  match u_role user with
  | Some r =>
      if (r =? "admin")%string || (r =? "instructor")%string then inr user
      else inl (HTTPException 403 "Admin access required")
  | None => inl (HTTPException 403 "Admin access required")
  end.

(** A route declared with [user=Depends(current_user)]: the dependency is
    resolved from the [x-user-id] header before the body runs, and its
    error is the response. *)
Definition with_current_user {A}
  (body : UserDoc -> Store -> result A * Store)
  (x_user_id : option string) (db : Store) : result A * Store :=
  match current_user x_user_id db with
  | inl e => (inl e, db)
  | inr u => body u db
  end.

(** A route declared with [_=Depends(admin_required)]. *)
Definition with_admin {A} (body : Store -> result A * Store)
  (x_user_id : option string) (db : Store) : result A * Store :=
  match current_user x_user_id db with
  | inl e => (inl e, db)
  | inr u =>
      match admin_required u with
      | inl e => (inl e, db)
      | inr _ => body db
      end
  end.

(** ** Sorted cursors

    [cursor.sort(key)]: a stable insertion sort; [le a b] says that [a]
    may come before [b]. *)

Fixpoint insert_by {A} (le : A -> A -> bool) (x : A) (l : list A) : list A :=
  match l with
  | [] => [x]
  | y :: rest => if le x y then x :: l else y :: insert_by le x rest
  end.

Fixpoint sort_by {A} (le : A -> A -> bool) (l : list A) : list A :=
  match l with
  | [] => []
  | x :: rest => insert_by le x (sort_by le rest)
  end.

(** ** Catalog: list_lessons and set_quiz (main.py, lines 140-145 and
    168-173) *)

Definition list_lessons (course_id : string) (db : Store) : list LessonDoc :=
  sort_by (fun a b => negb (order_lt (l_order b) (l_order a)))
    (filter (fun l => (l_course_id l =? course_id)%string) (lesson db)).

(** The request models [Question] and [Quiz] of schemas.py: every field is
    present once the request is validated. *)
Record Question := {
  qn_prompt : string;
  qn_options : list string;
  qn_correct_index : Z;
  qn_points : Z
}.

Record Quiz := {
  quiz_lesson_id : string;
  quiz_questions : list Question;
  quiz_pass_percentage : Z
}.

(** [question.model_dump()] *)
Definition dump_question (q : Question) : QuestionDoc :=
  {| q_prompt := qn_prompt q; q_options := qn_options q;
     q_correct_index := Some (qn_correct_index q);
     q_points := Some (qn_points q) |}.

Record OkResponse := { ok : bool }.

(** [quiz.model_dump()] stored under the identifier [i]. *)
Definition quiz_doc (q : Quiz) (i : ObjectId) : QuizDoc :=
  {| qz_id := i; qz_lesson_id := quiz_lesson_id q;
     qz_questions := Some (map dump_question (quiz_questions q));
     qz_pass_percentage := Some (quiz_pass_percentage q) |}.

(** [db.quiz.update_one({"lesson_id": lesson_id},
    {"$set": quiz.model_dump()}, upsert=True)].  The integers of the quiz
    are kept unbounded; the driver refuses to write one outside
    [int64]. *)
Definition upsert_quiz (lesson_id : string) (q : Quiz) (db : Store) : Store :=
  match update_first (fun d => (qz_lesson_id d =? lesson_id)%string)
          (fun d => quiz_doc q (qz_id d)) (quiz db) with
  | Some qs =>
      {| user := user db; lesson := lesson db; quiz := qs;
         enrollment := enrollment db; lessonprogress := lessonprogress db;
         transaction := transaction db; notification := notification db;
         next_id := next_id db |}
  | None =>
      {| user := user db; lesson := lesson db;
         quiz := quiz db ++ [quiz_doc q (generated_id (next_id db))];
         enrollment := enrollment db; lessonprogress := lessonprogress db;
         transaction := transaction db; notification := notification db;
         next_id := N.succ (next_id db) |}
  end.

Definition set_quiz (lesson_id : string) (q : Quiz) (db : Store)
  : result OkResponse * Store :=
  if negb (quiz_lesson_id q =? lesson_id)%string then
    (inl (HTTPException 400 "lesson_id mismatch"), db)
  else (inr {| ok := true |}, upsert_quiz lesson_id q db).

(** ** My courses (main.py, lines 200-207)

    The [course] collection, which no other handler of this development
    reads or writes, is passed beside the store. *)

Record CourseDoc := {
  c_id : ObjectId;
  c_title : string;
  c_category : string;
  c_subcategory : option string;
  c_price_rupees : Z
}.

(** [[oid(cid) for cid in course_ids]]: the first malformed identifier
    raises. *)
Fixpoint oid_all (l : list string) : result (list ObjectId) :=
  match l with
  | [] => inr []
  | s :: rest =>
      match oid s with
      | inl e => inl e
      | inr o =>
          match oid_all rest with
          | inl e => inl e
          | inr os => inr (o :: os)
          end
      end
  end.

Definition my_courses (course : list CourseDoc) (user : UserDoc)
  (db : Store) : result (list CourseDoc) :=
  let ens :=
    filter (fun e => (e_user_id e =? u_id user)%string) (enrollment db) in
  let course_ids := map e_course_id ens in
  match course_ids with
  | [] => inr []
  | _ =>
      match oid_all course_ids with
      | inl e => inl e
      | inr ids =>
          inr (filter (fun c => existsb (String.eqb (c_id c)) ids) course)
      end
  end.

(** ** Notifications (main.py, lines 308-313) *)

(** [find({"user_id": uid}).sort("_id", -1)]: identifiers compare as
    their bytes, which for canonical text is the order of the text. *)
Definition list_notifications (user : UserDoc) (db : Store)
  : list NotificationDoc :=
  sort_by (fun a b => (n_id b <=? n_id a)%string)
    (filter (fun n => (n_user_id n =? u_id user)%string) (notification db)).

(** ** Administration (main.py, lines 335-350) *)

Record UnlockRequest := { ur_user_id : string; ur_lesson_id : string }.

Definition admin_unlock (req : UnlockRequest) (db : Store)
  : result OkResponse * Store :=
  match oid (ur_lesson_id req) with
  | inl e => (inl e, db)
  | inr o =>
      match find_lesson db o with
      | None => (inl (HTTPException 404 "Lesson not found"), db)
      | Some lesson =>
          (inr {| ok := true |},
           unlock_lesson (ur_user_id req) (l_course_id lesson)
             (ur_lesson_id req) db)
      end
  end.

(** ** Requests that write to the store *)

Inductive request :=
| Enroll (enr : Enrollment) (x_user_id : option string)
| SubmitQuiz (lesson_id : string) (payload : QuizSubmission)
    (x_user_id : option string)
| BuyCoins (payload : BuyCoinsRequest) (x_user_id : option string)
| ExchangePoints (payload : ExchangePointsRequest)
    (x_user_id : option string)
| SetQuiz (lesson_id : string) (q : Quiz) (x_user_id : option string)
| AdminUnlock (req : UnlockRequest) (x_user_id : option string).

(** The store a request leaves behind. *)
Definition serve (r : request) (db : Store) : Store :=
  match r with
  | Enroll enr h => snd (with_current_user (enroll enr) h db)
  | SubmitQuiz l p h => snd (with_current_user (submit_quiz l p) h db)
  | BuyCoins p h => snd (with_current_user (buy_coins p) h db)
  | ExchangePoints p h => snd (with_current_user (exchange_points p) h db)
  | SetQuiz l q h => snd (with_admin (set_quiz l q) h db)
  | AdminUnlock req h => snd (with_admin (admin_unlock req) h db)
  end.

Definition serve_all (rs : list request) (db : Store) : Store :=
  fold_left (fun d r => serve r d) rs db.

(** ** More documents for the examples *)

Definition teacher : UserDoc :=
  {| u_id := "650000000000000000000002"; u_name := "Teacher";
     u_email := "teacher@example.com"; u_phone := None;
     u_role := Some "instructor"; u_coins := Some 0; u_points := Some 0 |}.

Definition staffed_store : Store :=
  {| user := [learner; teacher]; lesson := [lesson_2; lesson_0; lesson_1];
     quiz := [quiz_0; quiz_1]; enrollment := []; lessonprogress := [];
     transaction := []; notification := []; next_id := 256 |}.

(** * Properties *)

(** ** Rounding in binary64 *)

Module PyFloatFacts.
Import PyFloat.

Lemma shr_1_spec mrs :
  0 <= shr_m mrs ->
  shr_m (shr_1 mrs) = shr_m mrs / 2 /\
  (inexact (shr_1 mrs) = true -> inexact mrs = true \/ shr_m mrs mod 2 <> 0).
Proof.
  destruct mrs as [m r s]; unfold inexact, shr_1; cbn [shr_m shr_r shr_s]; intros Hm.
  destruct m as [|[p|p|]|p]; cbn [shr_m shr_r shr_s]; try lia.
  - split; [reflexivity|]. rewrite orb_false_l; intros ->; now left.
  - split; [|intros _; right; rewrite Pos2Z.inj_xI, Z.add_comm, Z.mul_comm, Z_mod_plus_full; discriminate].
    rewrite Pos2Z.inj_xI. apply Z.div_unique with 1; lia.
  - split; [|rewrite orb_false_l; intros ->; now left].
    rewrite Pos2Z.inj_xO. apply Z.div_unique with 0; lia.
  - split; [reflexivity|]. now right.
Qed.

Lemma iter_pos_shr_1 p : forall mrs,
  0 <= shr_m mrs ->
  shr_m (iter_pos shr_1 p mrs) = shr_m mrs / 2 ^ Zpos p /\
  (inexact (iter_pos shr_1 p mrs) = true ->
   inexact mrs = true \/ shr_m mrs mod 2 ^ Zpos p <> 0).
Proof.
  assert (step : forall j k m, 0 < j -> 0 < k -> 0 <= m ->
            (m mod 2 ^ j <> 0 \/ (m / 2 ^ j) mod 2 ^ k <> 0) -> m mod 2 ^ (j + k) <> 0).
  { intros j k m Hj Hk Hm H.
    rewrite Z.pow_add_r by lia.
    rewrite Z.rem_mul_r by lia.
    assert (0 <= m mod 2 ^ j < 2 ^ j) by (apply Z.mod_pos_bound; lia).
    assert (0 <= (m / 2 ^ j) mod 2 ^ k < 2 ^ k) by (apply Z.mod_pos_bound; lia).
    assert (0 < 2 ^ j) by lia. nia. }
  induction p as [p IH|p IH|]; intros mrs Hm; simpl iter_pos.
  - destruct (shr_1_spec mrs Hm) as [E1 I1].
    assert (H1 : 0 <= shr_m (shr_1 mrs)) by (rewrite E1; apply Z.div_pos; lia).
    destruct (IH _ H1) as [E2 I2].
    assert (H2 : 0 <= shr_m (iter_pos shr_1 p (shr_1 mrs))) by (rewrite E2; apply Z.div_pos; lia).
    destruct (IH _ H2) as [E3 I3].
    assert (Ep : Z.pos p~1 = 1 + (Z.pos p + Z.pos p)) by lia.
    split.
    + rewrite E3, E2, E1, !Z.div_div by lia.
      f_equal. rewrite Ep, !Z.pow_add_r by lia. lia.
    + intros HI. rewrite Ep.
      destruct (I3 HI) as [HI2|HR3].
      * destruct (I2 HI2) as [HI1|HR2].
        -- destruct (I1 HI1) as [?|HR1]; [now left|right].
           apply step; [lia|lia|lia|]. left. now rewrite Z.pow_1_r.
        -- right. apply step; [lia|lia|lia|]. right. rewrite Z.pow_1_r, <- E1.
           apply step; [lia|lia|lia|]. now left.
      * right. apply step; [lia|lia|lia|]. right. rewrite Z.pow_1_r, <- E1.
        apply step; [lia|lia|lia|]. right. now rewrite <- E2.
  - destruct (IH _ Hm) as [E2 I2].
    assert (H2 : 0 <= shr_m (iter_pos shr_1 p mrs)) by (rewrite E2; apply Z.div_pos; lia).
    destruct (IH _ H2) as [E3 I3].
    assert (Ep : Z.pos p~0 = Z.pos p + Z.pos p) by lia.
    split.
    + rewrite E3, E2, !Z.div_div by lia.
      f_equal. rewrite Ep, !Z.pow_add_r by lia. lia.
    + intros HI. rewrite Ep.
      destruct (I3 HI) as [HI2|HR3].
      * destruct (I2 HI2) as [?|HR2]; [now left|right].
        apply step; [lia|lia|lia|]. now left.
      * right. apply step; [lia|lia|lia|]. right. now rewrite <- E2.
  - rewrite Z.pow_1_r. apply shr_1_spec, Hm.
Qed.

Lemma shr_spec mrs e n :
  0 <= shr_m mrs ->
  snd (shr mrs e n) = e + Z.max n 0 /\
  shr_m (fst (shr mrs e n)) = shr_m mrs / 2 ^ Z.max n 0 /\
  (inexact (fst (shr mrs e n)) = true ->
   inexact mrs = true \/ shr_m mrs mod 2 ^ Z.max n 0 <> 0).
Proof.
  intros Hm. destruct n as [|p|p]; cbn [shr fst snd].
  - rewrite Z.max_id, Z.add_0_r, Z.pow_0_r, Z.div_1_r. auto.
  - replace (Z.max (Z.pos p) 0) with (Z.pos p) by lia.
    split; [reflexivity|]. now apply iter_pos_shr_1.
  - replace (Z.max (Z.neg p) 0) with 0 by lia.
    rewrite Z.add_0_r, Z.pow_0_r, Z.div_1_r. auto.
Qed.

Lemma digits2_pos_bounds p :
  2 ^ (Z.pos (digits2_pos p) - 1) <= Z.pos p < 2 ^ Z.pos (digits2_pos p).
Proof.
  induction p as [p IH|p IH|]; cbn [digits2_pos].
  - rewrite Pos2Z.inj_succ.
    assert (E : Z.pos p~1 = 2 * Z.pos p + 1) by reflexivity.
    set (d := Z.pos (digits2_pos p)) in *.
    replace (Z.succ d - 1) with (Z.succ (d - 1)) by lia.
    rewrite !Z.pow_succ_r by lia. lia.
  - rewrite Pos2Z.inj_succ.
    assert (E : Z.pos p~0 = 2 * Z.pos p) by reflexivity.
    set (d := Z.pos (digits2_pos p)) in *.
    replace (Z.succ d - 1) with (Z.succ (d - 1)) by lia.
    rewrite !Z.pow_succ_r by lia. lia.
  - cbn. lia.
Qed.

Lemma round_nearest_even_bounds mrs :
  let q := round_nearest_even (shr_m mrs) (loc_of_shr_record mrs) in
  shr_m mrs <= q <= shr_m mrs + 1 /\ (inexact mrs = false -> q = shr_m mrs).
Proof.
  destruct mrs as [m [|] [|]]; unfold inexact; cbn; try destruct (Z.even m); split; (lia || discriminate || auto).
Qed.

Lemma inexact_of_loc m l :
  inexact (shr_record_of_loc m l) = true -> l <> loc_Exact.
Proof. destruct l as [|[| |]]; cbn; congruence. Qed.

Lemma shr_m_of_loc m l : shr_m (shr_record_of_loc m l) = m.
Proof. now destruct l as [|[| |]]. Qed.


Lemma pow2_lt_inv a b : 0 <= b -> 2 ^ a < 2 ^ b -> a < b.
Proof. intros Hb H. apply (Z.pow_lt_mono_r_iff 2); lia. Qed.

Lemma pow2_split a b : 0 <= b <= a -> 2 ^ a = 2 ^ (a - b) * 2 ^ b.
Proof. intros H. rewrite <- Z.pow_add_r by lia. f_equal; lia. Qed.

Lemma binary_round_aux_le sx mx ex lx c u :
  0 <= mx -> -1074 <= ex -> 1 <= c < 2 ^ 52 -> 0 <= u <= 1994 ->
  mx * 2 ^ (ex + 1074) <= c * 2 ^ u ->
  (lx <> loc_Exact -> (mx + 1) * 2 ^ (ex + 1074) <= c * 2 ^ u) ->
  bounded_by sx c u (binary_round_aux prec emax sx mx ex lx).
Proof.
  intros Hmx Hex Hc Hu Hle Hlt.
  unfold bounded_by, binary_round_aux, shr_fexp.
  set (n := fexp prec emax (Zdigits2 mx + ex) - ex).
  pose proof (shr_spec (shr_record_of_loc mx lx) ex n) as S1.
  rewrite shr_m_of_loc in S1. specialize (S1 Hmx).
  destruct (shr (shr_record_of_loc mx lx) ex n) as [mrs1 e1].
  cbn [fst snd] in S1. destruct S1 as (He1 & Hm1 & Hi1).
  pose proof (round_nearest_even_bounds mrs1) as R. cbv zeta in R.
  set (q3 := round_nearest_even (shr_m mrs1) (loc_of_shr_record mrs1)) in *.
  destruct R as [Rb Re].
  set (k := Z.max n 0) in *.
  assert (HT : 0 < 2 ^ k) by (apply Z.pow_pos_nonneg; lia).
  assert (HP : 0 < 2 ^ (ex + 1074)) by (apply Z.pow_pos_nonneg; lia).
  assert (HTP : 2 ^ (e1 + 1074) = 2 ^ k * 2 ^ (ex + 1074)).
  { rewrite He1, <- Z.pow_add_r by lia. f_equal; lia. }
  assert (Hq2 : 0 <= shr_m mrs1) by (rewrite Hm1; apply Z.div_pos; lia).
  pose proof (Z.div_mod mx (2 ^ k) ltac:(lia)) as Hdm.
  pose proof (Z.mod_pos_bound mx (2 ^ k) HT) as Hrem.
  rewrite <- Hm1 in Hdm.
  assert (Hq3 : 0 <= q3 /\ q3 * 2 ^ (e1 + 1074) <= c * 2 ^ u).
  { split; [lia|]. rewrite HTP.
    destruct (inexact mrs1) eqn:Hin.
    2:{ rewrite (Re eq_refl). nia. }
    specialize (Hi1 eq_refl).
    assert (Hstrict : shr_m mrs1 * (2 ^ k * 2 ^ (ex + 1074)) < c * 2 ^ u).
    { destruct Hi1 as [Hl|Hr].
      - apply inexact_of_loc in Hl. specialize (Hlt Hl). nia.
      - nia. }
    destruct (Z.eq_dec k 0) as [Hk0|Hk0].
    - rewrite Hk0 in *. rewrite Z.pow_0_r in *.
      destruct Hi1 as [Hl|Hr]; [|rewrite Z.mod_1_r in Hr; congruence].
      apply inexact_of_loc in Hl. specialize (Hlt Hl).
      rewrite Z.div_1_r in Hm1. nia.
    - assert (Hn : 0 < n) by lia.
      assert (Hkn : k = n) by lia.
      destruct mx as [|p|p]; [|clear Hmx|lia].
      { exfalso. unfold n, fexp, SpecFloat.emin, prec, emax in Hn.
        cbn [Zdigits2] in Hn. lia. }
      assert (He0 : e1 + 1074 <= u).
      { pose proof (digits2_pos_bounds p) as Hd.
        set (d := Z.pos (digits2_pos p)) in *.
        assert (H1 : 2 ^ (d - 1 + (ex + 1074)) < 2 ^ (52 + u)).
        { rewrite (Z.pow_add_r 2 (d - 1)), (Z.pow_add_r 2 52 u) by lia.
          assert (0 < 2 ^ u) by (apply Z.pow_pos_nonneg; lia).
          assert (2 ^ (d - 1) * 2 ^ (ex + 1074) <= Z.pos p * 2 ^ (ex + 1074))
            by (apply Z.mul_le_mono_nonneg_r; lia).
          assert (c * 2 ^ u < 2 ^ 52 * 2 ^ u)
            by (apply Z.mul_lt_mono_pos_r; lia).
          lia. }
        apply pow2_lt_inv in H1; [|lia].
        rewrite He1, Hkn. unfold n, fexp, SpecFloat.emin, prec, emax.
        cbn [Zdigits2]. fold d. lia. }
      rewrite (pow2_split u (e1 + 1074)) in * by lia.
      rewrite HTP in *.
      set (W := c * 2 ^ (u - (e1 + 1074))) in *.
      set (TP := 2 ^ k * 2 ^ (ex + 1074)) in *.
      assert (0 < TP) by (unfold TP; nia).
      rewrite Z.mul_assoc in *. fold W in Hstrict, Hle |- *.
      assert (shr_m mrs1 < W) by nia.
      nia. }
  destruct Hq3 as [Hq3n Hq3].
  set (n1 := fexp prec emax (Zdigits2 q3 + e1) - e1).
  pose proof (shr_spec (shr_record_of_loc q3 loc_Exact) e1 n1) as S2.
  rewrite shr_m_of_loc in S2. specialize (S2 Hq3n).
  destruct (shr (shr_record_of_loc q3 loc_Exact) e1 n1) as [mrs2 e2].
  cbn [fst snd] in S2. destruct S2 as (He2 & Hm2 & _).
  set (k1 := Z.max n1 0) in *.
  assert (HT1 : 0 < 2 ^ k1) by (apply Z.pow_pos_nonneg; lia).
  assert (Hv : shr_m mrs2 * 2 ^ (e2 + 1074) <= c * 2 ^ u).
  { rewrite He2.
    replace (e1 + k1 + 1074) with (k1 + (e1 + 1074)) by lia.
    rewrite Z.pow_add_r by lia.
    pose proof (Z.div_mod q3 (2 ^ k1) ltac:(lia)) as Hdm2.
    pose proof (Z.mod_pos_bound q3 (2 ^ k1) HT1) as Hrem2.
    rewrite <- Hm2 in Hdm2.
    assert (0 < 2 ^ (e1 + 1074)) by (apply Z.pow_pos_nonneg; lia).
    nia. }
  assert (Hm2n : 0 <= shr_m mrs2) by (rewrite Hm2; apply Z.div_pos; lia).
  destruct (shr_m mrs2) as [|m|m] eqn:Em; [reflexivity| |lia].
  assert (He2b : e2 <= 971).
  { assert (H1 : 2 ^ (e2 + 1074) < 2 ^ (52 + u)).
    { rewrite (Z.pow_add_r 2 52 u) by lia.
      assert (0 < 2 ^ (e2 + 1074)) by (apply Z.pow_pos_nonneg; lia).
      assert (0 < 2 ^ u) by (apply Z.pow_pos_nonneg; lia).
      assert (1 * 2 ^ (e2 + 1074) <= Z.pos m * 2 ^ (e2 + 1074))
        by (apply Z.mul_le_mono_nonneg_r; lia).
      assert (c * 2 ^ u < 2 ^ 52 * 2 ^ u)
        by (apply Z.mul_lt_mono_pos_r; lia).
      lia. }
    apply pow2_lt_inv in H1; lia. }
  unfold emax, prec. change (1024 - 53) with 971.
  destruct (Z.leb_spec e2 971) as [_|]; [|lia].
  repeat split; [lia|exact Hv].
Qed.


Lemma new_location_0 nb : new_location nb 0 = loc_Exact.
Proof. unfold new_location. now destruct (Z.even nb). Qed.

Lemma div_core_spec ma mb :
  let '(q, e, l) := SFdiv_core_binary prec emax (Z.pos ma) 0 (Z.pos mb) 0 in
  -1074 <= e <= 0 /\ 0 <= q /\
  q * Z.pos mb <= Z.pos ma * 2 ^ (- e) /\
  (l <> loc_Exact -> q * Z.pos mb < Z.pos ma * 2 ^ (- e)).
Proof.
  unfold SFdiv_core_binary.
  set (e := Z.min (fexp prec emax (Zdigits2 (Z.pos ma) + 0 - (Zdigits2 (Z.pos mb) + 0))) (0 - 0)).
  assert (He : -1074 <= e <= 0).
  { unfold e, fexp, SpecFloat.emin, prec, emax. lia. }
  set (m' := match 0 - 0 - e with
             | 0 => Z.pos ma
             | Z.pos _ => Z.shiftl (Z.pos ma) (0 - 0 - e)
             | Z.neg _ => 0
             end).
  assert (Hm' : m' = Z.pos ma * 2 ^ (- e)).
  { unfold m'. replace (0 - 0 - e) with (- e) by lia.
    destruct (- e) as [|p|p] eqn:E; [rewrite Z.pow_0_r; lia| |lia].
    rewrite Z.shiftl_mul_pow2; lia. }
  pose proof (Z_div_mod m' (Z.pos mb) ltac:(lia)) as H.
  destruct (Z.div_eucl m' (Z.pos mb)) as [q r].
  destruct H as [H1 H2]. rewrite <- Hm'.
  assert (0 <= m') by (rewrite Hm'; apply Z.mul_nonneg_nonneg; [lia|apply Z.pow_nonneg; lia]).
  repeat split; try lia; try nia.
  intros Hl.
  assert (r <> 0) by (intros ->; apply Hl, new_location_0).
  nia.
Qed.


Lemma div_bounded sa sb pa pb k :
  0 <= k <= 900 -> Z.pos pa <= 2 ^ k * Z.pos pb ->
  bounded_by (xorb sa sb) 1 (k + 1074)
    (SFdiv prec emax (S754_finite sa pa 0) (S754_finite sb pb 0)).
Proof.
  intros Hk Hab. cbn [SFdiv].
  pose proof (div_core_spec pa pb) as H.
  destruct (SFdiv_core_binary prec emax (Z.pos pa) 0 (Z.pos pb) 0) as [[q e] l].
  destruct H as (He & Hq & Hle & Hlt).
  assert (Hpk : 0 < 2 ^ k) by (apply Z.pow_pos_nonneg; lia).
  assert (Hpe : 0 < 2 ^ (- e)) by (apply Z.pow_pos_nonneg; lia).
  assert (Hpe' : 0 < 2 ^ (e + 1074)) by (apply Z.pow_pos_nonneg; lia).
  assert (Hsplit : 2 ^ (k + 1074) = 2 ^ k * 2 ^ (- e) * 2 ^ (e + 1074)).
  { rewrite <- !Z.pow_add_r by lia. f_equal; lia. }
  assert (Hab' : Z.pos pa * 2 ^ (- e) <= 2 ^ k * 2 ^ (- e) * Z.pos pb) by nia.
  apply binary_round_aux_le; [lia|lia|lia|lia| |].
  - rewrite Z.mul_1_l, Hsplit. apply Z.mul_le_mono_nonneg_r; [lia|]. nia.
  - intros Hl. specialize (Hlt Hl).
    rewrite Z.mul_1_l, Hsplit. apply Z.mul_le_mono_nonneg_r; [lia|]. nia.
Qed.

Lemma mul_100_bounded s k x :
  0 <= k <= 900 -> bounded_by s 1 (k + 1074) x ->
  bounded_by s 100 (k + 1074) (float_mul x (float_of_int 100)).
Proof.
  intros Hk Hx. destruct x as [s'|s'| |s' m e]; unfold bounded_by in Hx; try contradiction.
  - subst. cbn. now destruct s.
  - destruct Hx as (-> & He & Hv).
    unfold float_mul, float_of_int. cbn [SFmul].
    replace (xorb s false) with s by now destruct s.
    rewrite Z.add_0_r.
    assert (0 < 2 ^ (e + 1074)) by (apply Z.pow_pos_nonneg; lia).
    apply binary_round_aux_le; [lia|lia|lia|lia| |congruence].
    + rewrite Pos2Z.inj_mul.
      replace (Z.pos m * 100 * 2 ^ (e + 1074))
        with (100 * (Z.pos m * 2 ^ (e + 1074))) by ring.
      lia.
Qed.

Lemma int_of_float_bounded s c k x :
  0 <= k -> 0 <= c -> bounded_by s c (k + 1074) x ->
  exists p, int_of_float x = inr p /\ Z.abs p <= c * 2 ^ k /\
            (s = false -> 0 <= p) /\ (s = true -> p <= 0).
Proof.
  intros Hk Hc Hx. destruct x as [s'|s'| |s' m e]; unfold bounded_by in Hx; try contradiction.
  - exists 0. assert (0 <= 2 ^ k) by (apply Z.pow_nonneg; lia).
    split; [reflexivity|]. change (Z.abs 0) with 0. repeat split; nia.
  - destruct Hx as (-> & He & Hv). cbn [int_of_float].
    set (t := Z.shiftl (Z.pos m) e).
    assert (Ht : 0 <= t <= c * 2 ^ k).
    { unfold t. rewrite (Z.pow_add_r 2 k 1074) in Hv by lia.
      assert (0 < 2 ^ 1074) by (apply Z.pow_pos_nonneg; lia).
      assert (0 <= 2 ^ k) by (apply Z.pow_nonneg; lia).
      destruct (Z_le_gt_dec 0 e) as [Hpos|Hneg].
      - rewrite Z.shiftl_mul_pow2 by lia.
        rewrite (Z.pow_add_r 2 e 1074) in Hv by lia.
        assert (0 < 2 ^ e) by (apply Z.pow_pos_nonneg; lia). nia.
      - rewrite Z.shiftl_div_pow2 by lia.
        assert (0 < 2 ^ (- e)) by (apply Z.pow_pos_nonneg; lia).
        split; [apply Z.div_pos; lia|].
        apply Z.div_le_upper_bound; [lia|].
        assert (E : 2 ^ 1074 = 2 ^ (- e) * 2 ^ (e + 1074)).
        { rewrite <- Z.pow_add_r by lia. f_equal; lia. }
        assert (0 < 2 ^ (e + 1074)) by (apply Z.pow_pos_nonneg; lia).
        rewrite E in Hv. nia. }
    exists (cond_Zopp s t). split; [reflexivity|].
    destruct s; cbn [cond_Zopp]; repeat split; intros; try discriminate; lia.
Qed.

Theorem percent_bounded a b k :
  b <> 0 -> 0 <= k <= 900 -> Z.abs a <= 2 ^ k * Z.abs b ->
  exists p, percent a b = inr p /\ Z.abs p <= 100 * 2 ^ k /\
            (0 <= a -> 0 < b -> 0 <= p).
Proof.
  intros Hb Hk Hab. unfold percent, int_true_divide.
  destruct (Z.eqb_spec b 0) as [|_]; [contradiction|].
  assert (Hz : forall sb pb,
    exists p, match (match SFdiv prec emax (float_of_int 0) (S754_finite sb pb 0) with
           | S754_infinity _ | S754_nan => inl OverflowError
           | x => inr x end) with
     | inl e => inl e
     | inr x => int_of_float (float_mul x (float_of_int 100)) end = inr p
     /\ Z.abs p <= 100 * 2 ^ k /\ 0 <= p).
  { intros sb pb. exists 0.
    assert (0 <= 2 ^ k) by (apply Z.pow_nonneg; lia).
    split; [reflexivity|]. change (Z.abs 0) with 0. lia. }
  assert (Hnz : forall sa sb pa pb, Z.pos pa <= 2 ^ k * Z.pos pb ->
    exists p, match (match SFdiv prec emax (S754_finite sa pa 0) (S754_finite sb pb 0) with
           | S754_infinity _ | S754_nan => inl OverflowError
           | x => inr x end) with
     | inl e => inl e
     | inr x => int_of_float (float_mul x (float_of_int 100)) end = inr p
     /\ Z.abs p <= 100 * 2 ^ k /\ (xorb sa sb = false -> 0 <= p)).
  { intros sa sb pa pb Hp.
    pose proof (div_bounded sa sb pa pb k Hk Hp) as Hd.
    pose proof (mul_100_bounded _ _ _ Hk Hd) as Hm.
    destruct (int_of_float_bounded (xorb sa sb) 100 k _ ltac:(lia) ltac:(lia) Hm) as (p & Ep & Hp1 & Hp2 & _).
    exists p.
    destruct (SFdiv prec emax (S754_finite sa pa 0) (S754_finite sb pb 0));
      unfold bounded_by in Hd; try contradiction; auto. }
  destruct b as [|pb|pb]; [contradiction| |];
  destruct a as [|pa|pa]; cbn [float_of_int].
  - destruct (Hz false pb) as (p & ? & ? & ?); eauto.
  - destruct (Hnz false false pa pb) as (p & ? & ? & ?); [lia|]. exists p; auto.
  - destruct (Hnz true false pa pb) as (p & ? & ? & ?); [lia|]. exists p. repeat split; auto; lia.
  - destruct (Hz true pb) as (p & ? & ? & ?); eauto.
  - destruct (Hnz false true pa pb) as (p & ? & ? & ?); [lia|]. exists p. repeat split; auto; lia.
  - destruct (Hnz true true pa pb) as (p & ? & ? & ?); [lia|]. exists p. repeat split; auto; lia.
Qed.


End PyFloatFacts.

(** ** Collections *)

Section Collections.
Context {A : Type}.

Lemma update_first_none (p : A -> bool) f l :
  update_first p f l = None <-> find p l = None.
Proof.
  induction l as [|x rest IH]; cbn; [tauto|].
  destruct (p x); [split; discriminate|].
  destruct (update_first p f rest); cbn; split; intros H;
    try discriminate; try (apply IH in H; discriminate); tauto.
Qed.

Lemma find_update_first_same (p : A -> bool) f l l' :
  (forall x, p x = true -> p (f x) = true) ->
  update_first p f l = Some l' ->
  find p l' = option_map f (find p l).
Proof.
  intros Hf. revert l'.
  induction l as [|x rest IH]; cbn; intros l' H; [discriminate|].
  destruct (p x) eqn:Px.
  - injection H as <-. cbn. now rewrite (Hf x Px).
  - destruct (update_first p f rest) as [r|]; [|discriminate].
    injection H as <-. cbn. rewrite Px. now apply IH.
Qed.

Lemma find_update_first_other (p q : A -> bool) f l l' :
  (forall x, p x = true -> q x = false /\ q (f x) = false) ->
  update_first p f l = Some l' ->
  find q l' = find q l.
Proof.
  intros Hf. revert l'.
  induction l as [|x rest IH]; cbn; intros l' H; [discriminate|].
  destruct (p x) eqn:Px.
  - injection H as <-. cbn. destruct (Hf x Px) as [-> ->]. reflexivity.
  - destruct (update_first p f rest) as [r|]; [|discriminate].
    injection H as <-. cbn. destruct (q x); [reflexivity|]. now apply IH.
Qed.

Lemma find_snoc (q : A -> bool) l x :
  find q (l ++ [x]) =
  match find q l with
  | Some y => Some y
  | None => if q x then Some x else None
  end.
Proof.
  induction l as [|y rest IH]; cbn; [reflexivity|].
  destruct (q y); [reflexivity|exact IH].
Qed.

Variable key : A -> option Z.
Let lt (a b : A) := order_lt (key a) (key b).

Lemma first_min_none l : first_min lt l = None -> l = [].
Proof.
  destruct l as [|x rest]; cbn; [reflexivity|].
  destruct (first_min lt rest) as [y|]; [destruct (lt y x)|]; discriminate.
Qed.

Lemma first_min_in l x : first_min lt l = Some x -> In x l.
Proof.
  revert x. induction l as [|y rest IH]; cbn; intros x H; [discriminate|].
  destruct (first_min lt rest) as [r|].
  - destruct (lt r y); injection H as <-; [right; now apply IH|now left].
  - injection H as <-. now left.
Qed.

Lemma first_min_least l x :
  first_min lt l = Some x -> forall y, In y l -> lt y x = false.
Proof.
  assert (irrefl : forall a, order_lt a a = false).
  { intros [a|]; cbn; [apply Z.ltb_irrefl|reflexivity]. }
  assert (asym : forall a b, order_lt a b = true -> order_lt b a = false).
  { intros [a|] [b|]; cbn; try reflexivity; try discriminate.
    intros H. apply Z.ltb_lt in H. apply Z.ltb_ge. lia. }
  assert (ntrans : forall a b c, order_lt a b = false ->
            order_lt b c = false -> order_lt a c = false).
  { intros [a|] [b|] [c|]; cbn; try reflexivity; try discriminate.
    rewrite !Z.ltb_ge. lia. }
  revert x. induction l as [|z rest IH]; cbn; intros x H y Hy; [tauto|].
  destruct (first_min lt rest) as [r|] eqn:Er.
  - destruct (lt r z) eqn:Lrz; injection H as <-.
    + destruct Hy as [<-|Hy]; [now apply asym|now apply IH].
    + destruct Hy as [<-|Hy]; [apply irrefl|].
      apply ntrans with (key r); [now apply IH|exact Lrz].
  - injection H as <-. apply first_min_none in Er. subst rest.
    destruct Hy as [<-|[]]. apply irrefl.
Qed.

End Collections.

(** ** Identifiers *)

Lemma lower_hex_is_hex c : is_lower_hex c = true -> is_hex c = true.
Proof. unfold is_hex. now intros ->. Qed.

Lemma lower_of_lower_hex c : is_lower_hex c = true -> lower c = c.
Proof.
  unfold is_lower_hex, lower. set (n := nat_of_ascii c). intros H.
  destruct ((65 <=? n)%nat && (n <=? 90)%nat) eqn:E; [|reflexivity].
  apply andb_prop in E. destruct E as [E1 E2].
  apply Nat.leb_le in E1, E2.
  apply orb_prop in H. destruct H as [H|H]; apply andb_prop in H;
    destruct H as [H1 H2]; apply Nat.leb_le in H1, H2; lia.
Qed.

Lemma hex_not_space c : is_hex c = true -> is_space c = false.
Proof.
  destruct c as [[] [] [] [] [] [] [] []]; vm_compute;
    intros H; (reflexivity || discriminate H).
Qed.

Lemma fromhex_lower_hex s :
  forall_string is_lower_hex s = true ->
  Nat.even (String.length s) = true -> fromhex s = Some s.
Proof.
  enough (H : (forall_string is_lower_hex s = true ->
               Nat.even (String.length s) = true -> fromhex s = Some s) /\
              forall c, forall_string is_lower_hex (String c s) = true ->
                Nat.even (String.length (String c s)) = true ->
                fromhex (String c s) = Some (String c s)) by apply H.
  induction s as [|d s [IH1 IH2]].
  - split; [reflexivity|]. intros c _ H. discriminate H.
  - split; [apply IH2|].
    intros c Hall Hlen.
    cbn [forall_string] in Hall.
    apply andb_prop in Hall. destruct Hall as [Hc Hall].
    apply andb_prop in Hall. destruct Hall as [Hd Hall].
    cbn [fromhex].
    rewrite (hex_not_space c (lower_hex_is_hex c Hc)).
    rewrite (lower_hex_is_hex c Hc), (lower_hex_is_hex d Hd). cbn [andb].
    rewrite (IH1 Hall Hlen).
    now rewrite (lower_of_lower_hex c Hc), (lower_of_lower_hex d Hd).
Qed.

Lemma canonical_parse s :
  canonical s = true -> ObjectId_of_str s = Some s.
Proof.
  unfold canonical, ObjectId_of_str. intros H.
  apply andb_prop in H. destruct H as [Hlen Hall]. rewrite Hlen.
  apply fromhex_lower_hex; [exact Hall|].
  apply Nat.eqb_eq in Hlen. now rewrite Hlen.
Qed.

(** ** Lessons in order *)

Lemma find_lesson_unique db o this :
  NoDup (map l_id (lesson db)) -> In this (lesson db) -> l_id this = o ->
  find_lesson db o = Some this.
Proof.
  unfold find_lesson. intros Hnd Hin <-.
  induction (lesson db) as [|x rest IH]; [contradiction|].
  inversion Hnd as [|? ? Hnot Hrest]; subst. cbn [find].
  destruct Hin as [->|Hin]; [now rewrite String.eqb_refl|].
  destruct (String.eqb_spec (l_id x) (l_id this)) as [E|_];
    [|now apply IH].
  elim Hnot. rewrite E. now apply in_map.
Qed.

Lemma find_lesson_absent db o :
  (forall x, In x (lesson db) -> l_id x <> o) -> find_lesson db o = None.
Proof.
  unfold find_lesson. intros H.
  destruct (find _ _) as [x|] eqn:E; [|reflexivity].
  apply find_some in E. destruct E as [Hin Hid].
  apply String.eqb_eq in Hid. now elim (H x Hin).
Qed.

Lemma find_lesson_in db o this :
  find_lesson db o = Some this -> In this (lesson db) /\ l_id this = o.
Proof.
  unfold find_lesson. intros H. apply find_some in H.
  destruct H as [Hin Hid]. now apply String.eqb_eq in Hid.
Qed.

Lemma next_lesson_lowest_greater db l nxt :
  next_lesson db l = Some nxt -> lowest_greater db l nxt.
Proof.
  unfold next_lesson, lowest_greater. intros H.
  pose proof (first_min_in _ _ _ H) as Hin.
  apply filter_In in Hin. destruct Hin as [Hin Hc].
  apply andb_prop in Hc. destruct Hc as [Hc Ho].
  apply String.eqb_eq in Hc.
  destruct (l_order nxt) as [o|] eqn:Eo; [|discriminate].
  apply Z.ltb_lt in Ho.
  repeat split; trivial. exists o. repeat split; trivial.
  intros x o' Hx Hxc Hxo Hlt.
  pose proof (first_min_least _ _ _ H x) as Hl. cbv beta in Hl.
  rewrite Hxo, Eo in Hl. cbn in Hl. apply Z.ltb_ge. apply Hl.
  apply filter_In. split; [exact Hx|].
  rewrite Hxc, String.eqb_refl, Hxo. cbn. now apply Z.ltb_lt.
Qed.

Lemma next_lesson_none db l :
  next_lesson db l = None ->
  forall nxt, ~ lowest_greater db l nxt.
Proof.
  unfold next_lesson. intros H nxt (Hin & Hc & o & Ho & Hlt & _).
  apply first_min_none in H.
  assert (Hf : In nxt (filter
            (fun x => (l_course_id x =? l_course_id l)%string &&
                      match l_order x with
                      | Some o => dflt 0 (l_order l) <? o
                      | None => false
                      end) (lesson db))).
  { apply filter_In. split; [exact Hin|].
    rewrite Hc, String.eqb_refl, Ho. cbn. now apply Z.ltb_lt. }
  rewrite H in Hf. exact Hf.
Qed.

Lemma next_lesson_some db l :
  (exists nxt, lowest_greater db l nxt) ->
  exists nxt, next_lesson db l = Some nxt.
Proof.
  intros [nxt H]. destruct (next_lesson db l) as [n|] eqn:E; [eauto|].
  now elim (next_lesson_none db l E nxt).
Qed.



(** ** Progress records under the two upserts *)

Lemma lp_key_true u l x :
  lp_key u l x = true <-> lp_user_id x = u /\ lp_lesson_id x = l.
Proof.
  unfold lp_key. rewrite andb_true_iff, !String.eqb_eq. tauto.
Qed.

Lemma lp_key_disjoint u l u' l' x :
  (u', l') <> (u, l) -> lp_key u l x = true -> lp_key u' l' x = false.
Proof.
  intros Hne H. apply lp_key_true in H. destruct H as [<- <-].
  destruct (lp_key u' l' x) eqn:E; [|reflexivity].
  apply lp_key_true in E. destruct E as [<- <-]. now elim Hne.
Qed.

Lemma upsert_lessonprogress_frame u l f mk db :
  let db' := upsert_lessonprogress u l f mk db in
  user db' = user db /\ lesson db' = lesson db /\ quiz db' = quiz db /\
  enrollment db' = enrollment db /\ transaction db' = transaction db /\
  notification db' = notification db.
Proof.
  unfold upsert_lessonprogress.
  destruct (update_first (lp_key u l) f (lessonprogress db));
    cbn; repeat split.
Qed.

Lemma find_upsert_same u l f mk db :
  (forall x, lp_key u l x = true -> lp_key u l (f x) = true) ->
  (forall i, lp_key u l (mk i) = true) ->
  find (lp_key u l) (lessonprogress (upsert_lessonprogress u l f mk db)) =
  match find (lp_key u l) (lessonprogress db) with
  | Some x => Some (f x)
  | None => Some (mk (generated_id (next_id db)))
  end.
Proof.
  intros Hf Hmk. unfold upsert_lessonprogress.
  destruct (update_first (lp_key u l) f (lessonprogress db)) as [lps|] eqn:E.
  - cbn. rewrite (find_update_first_same _ _ _ _ Hf E).
    destruct (find (lp_key u l) (lessonprogress db)) eqn:F; [reflexivity|].
    apply (proj2 (update_first_none _ f _)) in F. congruence.
  - cbn. apply update_first_none in E.
    rewrite find_snoc, E, Hmk. reflexivity.
Qed.

Lemma find_upsert_other u l u' l' f mk db :
  (u', l') <> (u, l) ->
  (forall x, lp_key u l x = true -> lp_key u l (f x) = true) ->
  (forall i, lp_key u l (mk i) = true) ->
  find (lp_key u' l') (lessonprogress (upsert_lessonprogress u l f mk db)) =
  find (lp_key u' l') (lessonprogress db).
Proof.
  intros Hne Hf Hmk. unfold upsert_lessonprogress.
  destruct (update_first (lp_key u l) f (lessonprogress db)) as [lps|] eqn:E.
  - cbn. apply (find_update_first_other (lp_key u l) _ f _ _); [|exact E].
    intros x Hx. split; eapply lp_key_disjoint; eauto.
  - cbn. rewrite find_snoc.
    rewrite (lp_key_disjoint u l u' l' _ Hne (Hmk _)).
    now destruct (find (lp_key u' l') (lessonprogress db)).
Qed.

Lemma set_completed_key u l sc mx x :
  lp_key u l x = true -> lp_key u l (set_completed sc mx x) = true.
Proof. trivial. Qed.

Lemma set_unlocked_key u c l x :
  lp_key u l x = true -> lp_key u l (set_unlocked u c l x) = true.
Proof.
  intros _. unfold lp_key. cbn. now rewrite !String.eqb_refl.
Qed.

Lemma new_record_key u l i c un co sc mx :
  lp_key u l {| lp_id := i; lp_user_id := u; lp_course_id := c;
                lp_lesson_id := l; lp_is_unlocked := un;
                lp_is_completed := co; lp_quiz_score := sc;
                lp_quiz_total := mx |} = true.
Proof. unfold lp_key. cbn. now rewrite !String.eqb_refl. Qed.

Lemma is_unlocked_record_completion u l sc mx db u' l' :
  is_unlocked (record_completion u l sc mx db) u' l' = is_unlocked db u' l'.
Proof.
  unfold is_unlocked, record_completion.
  destruct (string_dec u' u) as [->|Hu];
    [destruct (string_dec l' l) as [->|Hl]|].
  - rewrite find_upsert_same;
      [|apply set_completed_key|intros; apply new_record_key].
    now destruct (find (lp_key u l) (lessonprogress db)).
  - rewrite find_upsert_other;
      [reflexivity|congruence|apply set_completed_key
      |intros; apply new_record_key].
  - rewrite find_upsert_other;
      [reflexivity|congruence|apply set_completed_key
      |intros; apply new_record_key].
Qed.

Lemma is_unlocked_unlock_lesson_same u c l db :
  is_unlocked (unlock_lesson u c l db) u l = true.
Proof.
  unfold is_unlocked, unlock_lesson.
  rewrite find_upsert_same;
    [|apply set_unlocked_key|intros; apply new_record_key].
  now destruct (find (lp_key u l) (lessonprogress db)).
Qed.

Lemma is_unlocked_unlock_lesson_other u c l db u' l' :
  (u', l') <> (u, l) ->
  is_unlocked (unlock_lesson u c l db) u' l' = is_unlocked db u' l'.
Proof.
  intros Hne. unfold is_unlocked, unlock_lesson.
  rewrite find_upsert_other;
    [reflexivity|exact Hne|apply set_unlocked_key
    |intros; apply new_record_key].
Qed.

Lemma record_completion_lesson u l sc mx db :
  lesson (record_completion u l sc mx db) = lesson db.
Proof. apply upsert_lessonprogress_frame. Qed.

(** ** Quiz grading *)

Lemma score_loop_spec qs : forall i ans acc,
  score_loop i qs ans acc = acc + score_spec i qs ans.
Proof.
  induction qs as [|q rest IH]; intros i ans acc; cbn [score_loop score_spec];
    [lia|].
  rewrite IH.
  destruct (nth_error ans i) as [a|] eqn:E.
  - assert (Hi : (i < List.length ans)%nat)
      by (apply nth_error_Some; congruence).
    apply Nat.ltb_lt in Hi. rewrite Hi.
    rewrite (nth_error_nth ans i 0 E). cbn [andb].
    destruct (q_correct_index q) as [c|]; cbn [answer_matches];
      [destruct (a =? c)|]; lia.
  - apply nth_error_None in E. apply Nat.ltb_ge in E. rewrite E.
    cbn [andb]. lia.
Qed.

Lemma score_spec_nonneg_points qs : forall i ans,
  Forall (fun q => 0 <= dflt 1 (q_points q)) qs ->
  0 <= score_spec i qs ans <= sum_points qs.
Proof.
  induction qs as [|q rest IH]; intros i ans H; cbn [score_spec sum_points];
    [lia|].
  inversion H as [|? ? Hq Hrest]; subst.
  specialize (IH (S i) ans Hrest).
  destruct (nth_error ans i) as [a|]; [|lia].
  destruct (q_correct_index q) as [c|]; [|lia].
  destruct (a =? c); lia.
Qed.

Lemma submit_quiz_inr lesson_id payload user db r db' :
  submit_quiz lesson_id payload user db = (inr r, db') ->
  exists quiz, find_quiz db lesson_id = Some quiz /\
    let qs := dflt [] (qz_questions quiz) in
    let db1 :=
      record_completion (u_id user) lesson_id (score r) (total r) db in
    score r = score_spec 0 qs (answers payload) /\
    total r = (if sum_points qs =? 0 then 1 else sum_points qs) /\
    PyFloat.percent (score r) (total r) = inr (percentage r) /\
    passed r = (dflt 60 (qz_pass_percentage quiz) <=? percentage r) /\
    db' = if passed r then
            match ObjectId_of_str lesson_id with
            | Some o =>
                match find_lesson db o with
                | Some l =>
                    match next_lesson db l with
                    | Some nxt =>
                        unlock_lesson (u_id user) (l_course_id l) (l_id nxt)
                          db1
                    | None => db1
                    end
                | None => db1
                end
            | None => db1
            end
          else db1.
Proof.
  unfold submit_quiz. destruct (find_quiz db lesson_id) as [quiz|];
    [|discriminate].
  cbv zeta. rewrite score_loop_spec, Z.add_0_l.
  set (qs := dflt [] (qz_questions quiz)).
  set (sc := score_spec 0 qs (answers payload)).
  set (mx := if sum_points qs =? 0 then 1 else sum_points qs).
  destruct (PyFloat.percent sc mx) as [e|pct] eqn:Ep; [discriminate|].
  set (db1 := record_completion (u_id user) lesson_id sc mx db).
  assert (Hl : lesson db1 = lesson db) by apply record_completion_lesson.
  unfold find_lesson, next_lesson. rewrite Hl.
  intros H. exists quiz. split; [reflexivity|].
  destruct (dflt 60 (qz_pass_percentage quiz) <=? pct) eqn:Epass.
  - unfold oid in H.
    destruct (ObjectId_of_str lesson_id) as [o|]; [|discriminate].
    fold (find_lesson db o) in *.
    destruct (find_lesson db o) as [l|].
    + fold (next_lesson db l) in *.
      destruct (next_lesson db l) as [nxt|];
        injection H as <- <-; cbn; rewrite Epass; auto.
    + injection H as <- <-; cbn; rewrite Epass; auto.
  - injection H as <- <-; cbn; rewrite Epass; auto.
Qed.

(** C1, on the code's defect.  With 29 of 100 points the exact percentage
    is 29, which meets a pass mark of 29; [submit_quiz] divides and
    multiplies in binary floating point, where [29 / 100 * 100] is just
    below 29, reports 28 and fails the submission. *)
Theorem submit_quiz_29_of_100_reports_28 :
  fst (submit_quiz (l_id lesson_0) {| answers := [0; 1] |} learner
         sample_store)
  = inr {| score := 29; total := 100; percentage := 28; passed := false |}
  /\ percentage_spec 29 100 = 29
  /\ (dflt 60 (qz_pass_percentage quiz_0) <=? percentage_spec 29 100) = true.
Proof. vm_compute. repeat split. Qed.

(** Out of 100 points, the scores whose reported percentage is not the
    exact one. *)
Fact percent_of_100_slips :
  filter (fun s => match PyFloat.percent s 100 with
                   | inr p => negb (p =? percentage_spec s 100)
                   | inl _ => true
                   end) (map Z.of_nat (seq 0 101)) = [29; 57; 58].
Proof. vm_compute. reflexivity. Qed.

(** C2, as stated, fails: a quiz may carry negative points.  With
    questions worth 2 and -1 and only the first answered correctly, the
    score 2 exceeds the total 1 and the percentage is 200. *)
Lemma submit_quiz_negative_points_exceed_total :
  ~ (forall lesson_id payload user db r db',
       submit_quiz lesson_id payload user db = (inr r, db') ->
       0 <= percentage r <= 100 /\ score r <= total r).
Proof.
  intros H.
  assert (E : submit_quiz (l_id lesson_1) {| answers := [0; 1] |} learner
                sample_store
              = (inr {| score := 2; total := 1; percentage := 200;
                        passed := true |},
                 snd (submit_quiz (l_id lesson_1) {| answers := [0; 1] |}
                        learner sample_store)))
    by (vm_compute; reflexivity).
  apply H in E. cbn [percentage score total] in E. lia.
Qed.

(** C2, amended: when no question of the quiz has negative points, the
    reported percentage lies between 0 and 100 and the score does not
    exceed the total. *)
Theorem submit_quiz_bounds lesson_id payload user db quiz r db' :
  find_quiz db lesson_id = Some quiz ->
  Forall (fun q => 0 <= dflt 1 (q_points q)) (dflt [] (qz_questions quiz)) ->
  submit_quiz lesson_id payload user db = (inr r, db') ->
  0 <= percentage r <= 100 /\ score r <= total r.
Proof.
  intros Hq Hpts H.
  apply submit_quiz_inr in H. destruct H as (quiz' & Hq' & H).
  rewrite Hq in Hq'. injection Hq' as <-.
  cbv zeta in H. destruct H as (Hs & Ht & Hp & _).
  pose proof (score_spec_nonneg_points _ 0%nat (answers payload) Hpts) as Hb.
  rewrite <- Hs in Hb.
  assert (Hst : 0 <= score r <= total r /\ 0 < total r).
  { rewrite Ht.
    destruct (Z.eqb_spec (sum_points (dflt [] (qz_questions quiz))) 0); lia. }
  destruct (PyFloatFacts.percent_bounded (score r) (total r) 0)
    as (p & Ep & Habs & Hpos); [lia|lia|rewrite Z.pow_0_r; lia|].
  rewrite Ep in Hp. injection Hp as <-.
  rewrite Z.pow_0_r in Habs. specialize (Hpos ltac:(lia) ltac:(lia)). lia.
Qed.

Lemma submit_quiz_bounds_witness :
  let out := submit_quiz (l_id lesson_0) {| answers := [0; 0] |} learner
               sample_store in
  exists r, fst out = inr r /\
            0 <= percentage r <= 100 /\ score r <= total r.
Proof.
  eexists. split; [vm_compute; reflexivity|].
  apply (submit_quiz_bounds (l_id lesson_0) {| answers := [0; 0] |} learner
           sample_store quiz_0 _
           (snd (submit_quiz (l_id lesson_0) {| answers := [0; 0] |} learner
                   sample_store))).
  - reflexivity.
  - repeat constructor; vm_compute; discriminate.
  - vm_compute. reflexivity.
Defined.

(** ** Wallet *)

Lemma find_user_update_user id f db u :
  (forall x, u_id (f x) = u_id x) ->
  find_user db id = Some u ->
  find_user (update_user id f db) id = Some (f u).
Proof.
  intros Hf Hu. unfold find_user, update_user in *.
  destruct (update_first (fun x => (u_id x =? id)%string) f (user db))
    as [us|] eqn:E.
  - cbn.
    assert (Hp : forall x, (u_id x =? id)%string = true ->
                           (u_id (f x) =? id)%string = true)
      by (intros x Hx; now rewrite Hf).
    rewrite (find_update_first_same _ _ _ _ Hp E), Hu. reflexivity.
  - apply update_first_none in E. congruence.
Qed.

Lemma update_user_frame id f db :
  transaction (update_user id f db) = transaction db /\
  notification (update_user id f db) = notification db.
Proof.
  unfold update_user.
  now destruct (update_first (fun x => (u_id x =? id)%string) f (user db)).
Qed.

(** C3.  Exchange-points rejects a request of fewer than 100 points (that
    is, [points <= 0] or [points // 100 <= 0]) with status 400 and leaves
    the store as it was; otherwise, when the requested amount and the
    balances it leads to are integers the store can hold, with
    [coins = points // 100] (the quotient truncated toward zero), the
    user's points drop by [coins * 100], the user's coins grow by [coins],
    and one transaction and one notification are appended.  A request of
    250 points adds 2 coins and takes 200 points; a request of 50 points is
    rejected. *)
Theorem exchange_points_spec payload usr db :
  find_user db (u_id usr) = Some usr ->
  let p := er_points payload in
  let coins := p / 100 in
  (p < 100 <-> p <= 0 \/ coins <= 0) /\
  (p < 100 ->
   exists detail,
     exchange_points payload usr db = (inl (HTTPException 400 detail), db)) /\
  (100 <= p -> int64 p ->
   int64 (dflt 0 (u_points usr) - coins * 100) ->
   int64 (dflt 0 (u_coins usr) + coins) ->
   coins = Z.quot p 100 /\
   exists db' u' i j,
     exchange_points payload usr db =
       (inr {| ex_coins := dflt 0 (u_coins usr) + coins;
               ex_points := dflt 0 (u_points usr) - coins * 100 |}, db') /\
     find_user db' (u_id usr) = Some u' /\
     dflt 0 (u_points u') = dflt 0 (u_points usr) - coins * 100 /\
     dflt 0 (u_coins u') = dflt 0 (u_coins usr) + coins /\
     transaction db' = transaction db ++
       [{| t_id := i; t_user_id := u_id usr; t_type := "exchange_points";
           t_amount := p; t_status := "success"; t_reference := None |}] /\
     notification db' = notification db ++
       [{| n_id := j; n_user_id := u_id usr;
           n_title := "Exchange Successful";
           n_message := ("Converted " ++ str_of_int (coins * 100)
                         ++ " points to " ++ str_of_int coins
                         ++ " coins")%string;
           n_type := "success"; n_is_read := false |}]) /\
  (p = 250 ->
   int64 (dflt 0 (u_points usr) - 200) -> int64 (dflt 0 (u_coins usr) + 2) ->
   exists db',
     exchange_points payload usr db =
       (inr {| ex_coins := dflt 0 (u_coins usr) + 2;
               ex_points := dflt 0 (u_points usr) - 200 |}, db')) /\
  (p = 50 ->
   exists detail,
     exchange_points payload usr db = (inl (HTTPException 400 detail), db)).
Proof.
  intros Hu p coins.
  assert (Hiff : p < 100 <-> p <= 0 \/ coins <= 0).
  { unfold coins. split; intros H.
    - destruct (Z_le_gt_dec p 0); [now left|right].
      rewrite Z.div_small; lia.
    - destruct H as [H|H]; [lia|].
      destruct (Z_lt_ge_dec p 100) as [|Hge]; [assumption|].
      assert (1 <= p / 100) by (apply Z.div_le_lower_bound; lia). lia. }
  assert (Hrej : p < 100 ->
    exists detail,
      exchange_points payload usr db = (inl (HTTPException 400 detail), db)).
  { intros Hp. unfold exchange_points. fold p.
    destruct (Z.leb_spec p 0); [eauto|].
    unfold COIN_TO_POINTS. fold coins.
    destruct (Z.leb_spec coins 0) as [|Hc]; [eauto|].
    apply Hiff in Hp. lia. }
  assert (Hok : 100 <= p ->
   coins = Z.quot p 100 /\
   exists db' u' i j,
     exchange_points payload usr db =
       (inr {| ex_coins := dflt 0 (u_coins usr) + coins;
               ex_points := dflt 0 (u_points usr) - coins * 100 |}, db') /\
     find_user db' (u_id usr) = Some u' /\
     dflt 0 (u_points u') = dflt 0 (u_points usr) - coins * 100 /\
     dflt 0 (u_coins u') = dflt 0 (u_coins usr) + coins /\
     transaction db' = transaction db ++
       [{| t_id := i; t_user_id := u_id usr; t_type := "exchange_points";
           t_amount := p; t_status := "success"; t_reference := None |}] /\
     notification db' = notification db ++
       [{| n_id := j; n_user_id := u_id usr;
           n_title := "Exchange Successful";
           n_message := ("Converted " ++ str_of_int (coins * 100)
                         ++ " points to " ++ str_of_int coins
                         ++ " coins")%string;
           n_type := "success"; n_is_read := false |}]).
  { intros Hp. split; [unfold coins; rewrite Z.quot_div_nonneg; lia|].
    assert (Hc : 0 < coins) by (destruct (Z_lt_ge_dec 0 coins); lia).
    unfold exchange_points. fold p.
    destruct (Z.leb_spec p 0); [lia|].
    unfold COIN_TO_POINTS. fold coins.
    destruct (Z.leb_spec coins 0); [lia|].
    set (f := inc_points_coins (- coins * 100) coins).
    pose proof (find_user_update_user (u_id usr) f db usr
                  (fun x => eq_refl) Hu) as Hf.
    destruct (update_user_frame (u_id usr) f db) as [Ht Hn].
    set (db1 := update_user (u_id usr) f db) in *.
    cbn [create_transaction create_notification].
    unfold find_user in *. cbn [user]. rewrite Hf.
    assert (Hr : {| ex_coins := dflt 0 (u_coins (f usr));
                    ex_points := dflt 0 (u_points (f usr)) |}
                 = {| ex_coins := dflt 0 (u_coins usr) + coins;
                      ex_points := dflt 0 (u_points usr) - coins * 100 |}).
    { cbn [f inc_points_coins u_coins u_points dflt]. f_equal; lia. }
    rewrite Hr.
    eexists _, (f usr), _, _. split; [reflexivity|].
    split; [exact Hf|].
    cbn [f inc_points_coins u_coins u_points dflt transaction notification].
    rewrite Ht, Hn. repeat split; lia. }
  repeat split; try tauto.
  - intros E _ _.
    destruct (Hok ltac:(lia)) as (_ & db' & u' & i & j & H & _).
    exists db'. rewrite H. unfold coins. rewrite E.
    change (250 / 100) with 2. reflexivity.
  - intros E. apply Hrej. lia.
Qed.

Lemma exchange_points_spec_witness :
  find_user sample_store (u_id learner) = Some learner /\
  int64 (dflt 0 (u_points learner) - 200) /\
  int64 (dflt 0 (u_coins learner) + 2) /\
  exists db',
    exchange_points {| er_points := 250 |} learner sample_store =
      (inr {| ex_coins := dflt 0 (u_coins learner) + 2;
              ex_points := dflt 0 (u_points learner) - 200 |}, db').
Proof.
  assert (H1 : int64 (dflt 0 (u_points learner) - 200))
    by (unfold int64; cbn; lia).
  assert (H2 : int64 (dflt 0 (u_coins learner) + 2))
    by (unfold int64; cbn; lia).
  split; [reflexivity|]. split; [exact H1|]. split; [exact H2|].
  apply (exchange_points_spec {| er_points := 250 |} learner sample_store);
    [reflexivity|reflexivity|exact H1|exact H2].
Defined.

Lemma buy_coins_success payload usr db :
  find_user db (u_id usr) = Some usr ->
  0 < br_coins payload ->
  exists db' i j,
    buy_coins payload usr db =
      (inr {| bc_coins := dflt 0 (u_coins usr) + br_coins payload;
              bc_message := "Coins added" |}, db') /\
    find_user db' (u_id usr) = Some (inc_coins (br_coins payload) usr) /\
    transaction db' = transaction db ++
      [{| t_id := i; t_user_id := u_id usr; t_type := "buy_coins";
          t_amount := br_coins payload; t_status := "success";
          t_reference := Some "PAY-MOCK" |}] /\
    notification db' = notification db ++
      [{| n_id := j; n_user_id := u_id usr;
          n_title := "Payment Successful";
          n_message := ("Added " ++ str_of_int (br_coins payload)
                        ++ " coins")%string;
          n_type := "success"; n_is_read := false |}].
Proof.
  intros Hu Hn. unfold buy_coins.
  destruct (Z.leb_spec (br_coins payload) 0); [lia|].
  set (n := br_coins payload) in *.
  pose proof (find_user_update_user (u_id usr) (inc_coins n) db usr
                (fun x => eq_refl) Hu) as Hf.
  destruct (update_user_frame (u_id usr) (inc_coins n) db) as [Ht Hn'].
  set (db1 := update_user (u_id usr) (inc_coins n) db) in *.
  cbn [create_transaction create_notification].
  unfold find_user in *. cbn [user]. rewrite Hf.
  eexists _, _, _. split; [reflexivity|].
  split; [exact Hf|].
  cbn [transaction notification]. rewrite Ht, Hn'. split; reflexivity.
Qed.

(** C4.  Buy-coins fails with status 400 exactly when the requested amount
    is not positive, and then leaves the store as it was; otherwise, when
    the amount and the balance it leads to are integers the store can
    hold, the user's coins grow by exactly the requested amount and one
    success transaction and one success notification are appended.  A
    request of -5 coins is rejected; a request of 10 coins adds exactly
    10. *)
Theorem buy_coins_spec payload usr db :
  find_user db (u_id usr) = Some usr ->
  let n := br_coins payload in
  ((exists detail db',
      buy_coins payload usr db = (inl (HTTPException 400 detail), db'))
   <-> n <= 0) /\
  (n <= 0 ->
   buy_coins payload usr db =
     (inl (HTTPException 400 "Invalid coin amount"), db)) /\
  (0 < n -> int64 n -> int64 (dflt 0 (u_coins usr) + n) ->
   exists db' u' i j,
     buy_coins payload usr db =
       (inr {| bc_coins := dflt 0 (u_coins usr) + n;
               bc_message := "Coins added" |}, db') /\
     find_user db' (u_id usr) = Some u' /\
     dflt 0 (u_coins u') = dflt 0 (u_coins usr) + n /\
     u_points u' = u_points usr /\
     transaction db' = transaction db ++
       [{| t_id := i; t_user_id := u_id usr; t_type := "buy_coins";
           t_amount := n; t_status := "success";
           t_reference := Some "PAY-MOCK" |}] /\
     notification db' = notification db ++
       [{| n_id := j; n_user_id := u_id usr;
           n_title := "Payment Successful";
           n_message := ("Added " ++ str_of_int n ++ " coins")%string;
           n_type := "success"; n_is_read := false |}]) /\
  (n = -5 ->
   buy_coins payload usr db =
     (inl (HTTPException 400 "Invalid coin amount"), db)) /\
  (n = 10 -> int64 (dflt 0 (u_coins usr) + 10) ->
   exists db' u',
     buy_coins payload usr db =
       (inr {| bc_coins := dflt 0 (u_coins usr) + 10;
               bc_message := "Coins added" |}, db') /\
     find_user db' (u_id usr) = Some u' /\
     dflt 0 (u_coins u') = dflt 0 (u_coins usr) + 10 /\
     List.length (transaction db') = S (List.length (transaction db)) /\
     List.length (notification db') = S (List.length (notification db))).
Proof.
  intros Hu n.
  assert (Hrej : n <= 0 ->
    buy_coins payload usr db =
      (inl (HTTPException 400 "Invalid coin amount"), db)).
  { intros Hn. unfold buy_coins. fold n.
    destruct (Z.leb_spec n 0); [reflexivity|lia]. }
  assert (Hok : 0 < n ->
   exists db' u' i j,
     buy_coins payload usr db =
       (inr {| bc_coins := dflt 0 (u_coins usr) + n;
               bc_message := "Coins added" |}, db') /\
     find_user db' (u_id usr) = Some u' /\
     dflt 0 (u_coins u') = dflt 0 (u_coins usr) + n /\
     u_points u' = u_points usr /\
     transaction db' = transaction db ++
       [{| t_id := i; t_user_id := u_id usr; t_type := "buy_coins";
           t_amount := n; t_status := "success";
           t_reference := Some "PAY-MOCK" |}] /\
     notification db' = notification db ++
       [{| n_id := j; n_user_id := u_id usr;
           n_title := "Payment Successful";
           n_message := ("Added " ++ str_of_int n ++ " coins")%string;
           n_type := "success"; n_is_read := false |}]).
  { intros Hn.
    destruct (buy_coins_success payload usr db Hu Hn)
      as (db' & i & j & E & F & T & N).
    exists db', (inc_coins n usr), i, j. fold n in E, F, T, N.
    repeat split; assumption. }
  repeat split.
  - intros (detail & db' & H).
    destruct (Z_le_gt_dec n 0) as [|Hn]; [assumption|].
    destruct (Hok ltac:(lia)) as (? & ? & ? & ? & E & _). congruence.
  - intros Hn. rewrite (Hrej Hn). eauto.
  - exact Hrej.
  - intros Hn _ _. exact (Hok Hn).
  - intros E. apply Hrej. lia.
  - intros E _.
    destruct (Hok ltac:(lia)) as (db' & u' & i & j & H & F & C & _ & T & N).
    exists db', u'. rewrite H, F, C, T, N, E, !length_app. cbn [List.length].
    repeat split; try lia.
Qed.

Lemma buy_coins_spec_witness :
  find_user sample_store (u_id learner) = Some learner /\
  int64 (dflt 0 (u_coins learner) + 10) /\
  exists db' u',
    buy_coins {| br_coins := 10; br_payment_provider := "mock" |} learner
      sample_store =
      (inr {| bc_coins := dflt 0 (u_coins learner) + 10;
              bc_message := "Coins added" |}, db') /\
    find_user db' (u_id learner) = Some u' /\
    dflt 0 (u_coins u') = dflt 0 (u_coins learner) + 10 /\
    List.length (transaction db') = S (List.length (transaction sample_store))
    /\
    List.length (notification db')
    = S (List.length (notification sample_store)).
Proof.
  assert (H1 : int64 (dflt 0 (u_coins learner) + 10))
    by (unfold int64; cbn; lia).
  split; [reflexivity|]. split; [exact H1|].
  apply (buy_coins_spec {| br_coins := 10; br_payment_provider := "mock" |}
           learner sample_store); [reflexivity|reflexivity|exact H1].
Defined.

(** A purchase never lowers a balance. *)
Lemma buy_coins_keeps_balances_nonnegative payload usr db r db' u' :
  find_user db (u_id usr) = Some usr ->
  0 <= dflt 0 (u_coins usr) -> 0 <= dflt 0 (u_points usr) ->
  buy_coins payload usr db = (inr r, db') ->
  find_user db' (u_id usr) = Some u' ->
  0 <= dflt 0 (u_coins u') /\ 0 <= dflt 0 (u_points u').
Proof.
  intros Hu Hc Hp H F.
  destruct (Z_le_gt_dec (br_coins payload) 0) as [Hn|Hn].
  - unfold buy_coins in H.
    destruct (Z.leb_spec (br_coins payload) 0); [discriminate|lia].
  - destruct (buy_coins_success payload usr db Hu ltac:(lia))
      as (d & i & j & E & F' & _).
    rewrite E in H. injection H as _ <-. rewrite F' in F.
    injection F as <-. cbn [inc_coins u_coins u_points dflt]. split; lia.
Qed.

(** C8, on the code's defect.  Exchange-points checks the requested amount
    but never the balance: a user who holds no points and asks to exchange
    250 is given 2 coins and left with -200 points. *)
Theorem exchange_points_overdraws_balance :
  find_user sample_store (u_id learner) = Some learner /\
  u_coins learner = Some 0 /\ u_points learner = Some 0 /\
  fst (exchange_points {| er_points := 250 |} learner sample_store)
  = inr {| ex_coins := 2; ex_points := -200 |} /\
  option_map u_points
    (find_user
       (snd (exchange_points {| er_points := 250 |} learner sample_store))
       (u_id learner))
  = Some (Some (-200)).
Proof. vm_compute. repeat split. Qed.

(** ** Enrollment *)

Lemma find_none_filter {A} (p : A -> bool) l :
  find p l = None -> filter p l = [].
Proof.
  induction l as [|x rest IH]; cbn; [reflexivity|].
  destruct (p x); [discriminate|exact IH].
Qed.



(** ** Unlocking the next lesson *)

(** C6.  After a passing submission on a stored lesson, a lesson of the
    same course with the lowest order strictly greater than that of the
    submitted one (when the course has a lesson of greater order) is
    unlocked for the user, and the unlock state of every other lesson, for
    every user, is as before; when the course has no lesson of greater
    order, or no stored lesson bears the submitted identifier, no unlock
    state has changed.  After a failing submission no unlock state has
    changed.  The identifiers of the stored lessons are distinct, as the
    store guarantees for [_id]. *)
Theorem submit_quiz_unlocks_only_next lesson_id payload usr db r db' :
  NoDup (map l_id (lesson db)) ->
  submit_quiz lesson_id payload usr db = (inr r, db') ->
  (passed r = false ->
   forall u l, is_unlocked db' u l = is_unlocked db u l) /\
  (passed r = true ->
   exists o, ObjectId_of_str lesson_id = Some o /\
     (canonical lesson_id = true -> o = lesson_id) /\
     ((forall x, In x (lesson db) -> l_id x <> o) ->
      forall u l, is_unlocked db' u l = is_unlocked db u l) /\
     forall this, In this (lesson db) -> l_id this = o ->
       ((forall nxt, ~ lowest_greater db this nxt) ->
        forall u l, is_unlocked db' u l = is_unlocked db u l) /\
       ((exists nxt, lowest_greater db this nxt) ->
        exists nxt, lowest_greater db this nxt /\
          is_unlocked db' (u_id usr) (l_id nxt) = true /\
          forall u l, (u, l) <> (u_id usr, l_id nxt) ->
                      is_unlocked db' u l = is_unlocked db u l)).
Proof.
  intros Hnd H. pose proof H as H0. apply submit_quiz_inr in H.
  destruct H as (quiz & Hq & H). cbv zeta in H.
  destruct H as (_ & _ & _ & Hpass & Hdb).
  split; intros Hp; rewrite Hp in Hdb.
  - intros u l. rewrite Hdb. apply is_unlocked_record_completion.
  - assert (Ho : exists o, ObjectId_of_str lesson_id = Some o).
    { unfold submit_quiz in H0. rewrite Hq in H0. cbv zeta in H0.
      destruct (PyFloat.percent _ _) as [e|pct] eqn:Ep; [discriminate|].
      destruct (dflt 60 (qz_pass_percentage quiz) <=? pct) eqn:Epass.
      - unfold oid in H0.
        destruct (ObjectId_of_str lesson_id) as [o|]; [eauto|discriminate].
      - injection H0 as <- _. cbn in Hp. congruence. }
    destruct Ho as [o Ho]. exists o. split; [exact Ho|].
    rewrite Ho in Hdb. split; [|split].
    + intros Hc. apply canonical_parse in Hc. congruence.
    + intros Habs. rewrite (find_lesson_absent db o Habs) in Hdb.
      intros u l. rewrite Hdb. apply is_unlocked_record_completion.
    + intros this Hin Hid.
      rewrite (find_lesson_unique db o this Hnd Hin Hid) in Hdb.
      destruct (next_lesson db this) as [nxt|] eqn:En.
      * apply next_lesson_lowest_greater in En. split.
        -- intros Hno. now elim (Hno nxt).
        -- intros _. exists nxt. split; [exact En|].
           rewrite Hdb. split.
           ++ apply is_unlocked_unlock_lesson_same.
           ++ intros u l Hne.
              rewrite is_unlocked_unlock_lesson_other by exact Hne.
              apply is_unlocked_record_completion.
      * split.
        -- intros _ u l. rewrite Hdb. apply is_unlocked_record_completion.
        -- intros [nxt Hex]. now elim (next_lesson_none db this En nxt).
Qed.

Lemma submit_quiz_unlocks_only_next_witness :
  let out := submit_quiz (l_id lesson_0) {| answers := [0; 0] |} learner
               sample_store in
  NoDup (map l_id (lesson sample_store)) /\
  exists r, fst out = inr r /\ passed r = true /\
    lowest_greater sample_store lesson_0 lesson_1 /\
    is_unlocked (snd out) (u_id learner) (l_id lesson_1) = true /\
    is_unlocked (snd out) (u_id learner) (l_id lesson_2) = false.
Proof.
  intros out.
  assert (Hnd : NoDup (map l_id (lesson sample_store)))
    by (repeat constructor; cbn; intuition discriminate).
  split; [exact Hnd|].
  assert (E : out = (inr {| score := 100; total := 100; percentage := 100;
                            passed := true |}, snd out))
    by (vm_compute; reflexivity).
  assert (Hlg : lowest_greater sample_store lesson_0 lesson_1)
    by (apply next_lesson_lowest_greater; reflexivity).
  eexists. split; [rewrite E; reflexivity|].
  split; [reflexivity|]. split; [exact Hlg|].
  destruct (submit_quiz_unlocks_only_next _ _ _ _ _ _ Hnd E) as [_ H].
  destruct (H eq_refl) as (o & Ho & Hcan & _ & Hthis).
  rewrite (Hcan eq_refl) in Hthis.
  destruct (Hthis lesson_0 (or_introl eq_refl) eq_refl) as [_ Hn].
  destruct (Hn (ex_intro _ lesson_1 Hlg))
    as (nxt & (Hin & _ & k & Hk & Hlt & Hleast) & Hu & Hframe).
  assert (Hnxt : nxt = lesson_1).
  { destruct Hin as [<-|[<-|[<-|[]]]].
    - injection Hk as <-. discriminate Hlt.
    - reflexivity.
    - injection Hk as <-.
      specialize (Hleast lesson_1 1 (or_intror (or_introl eq_refl))
                    eq_refl eq_refl ltac:(reflexivity)).
      lia. }
  subst nxt. split; [exact Hu|].
  rewrite Hframe; [reflexivity|]. vm_compute. discriminate.
Defined.

(** ** A lesson without a quiz *)

(** C7, as stated, fails: reading the quiz of a lesson that has none is
    not an error.  [get_quiz] answers with an empty quiz. *)
Lemma get_quiz_absent_is_not_404 :
  ~ (forall lesson_id db,
       find_quiz db lesson_id = None ->
       (exists detail,
          get_quiz lesson_id db = inl (HTTPException 404 detail)) /\
       (forall payload usr, exists detail,
          fst (submit_quiz lesson_id payload usr db)
          = inl (HTTPException 404 detail))).
Proof.
  intros H.
  destruct (H (l_id lesson_2) sample_store eq_refl) as [[detail E] _].
  discriminate E.
Qed.

(** C7, amended: submitting answers for a lesson that has no quiz fails
    with status 404 and leaves the store as it was; reading the quiz of
    such a lesson succeeds with the default quiz: no questions and a pass
    mark of 60. *)
Theorem absent_quiz_spec lesson_id db :
  find_quiz db lesson_id = None ->
  (forall payload usr,
     submit_quiz lesson_id payload usr db
     = (inl (HTTPException 404 "Quiz not found"), db)) /\
  get_quiz lesson_id db
  = inr {| qv_id := None; qv_lesson_id := lesson_id;
           qv_questions := Some []; qv_pass_percentage := Some 60 |}.
Proof.
  intros H. split.
  - intros payload usr. unfold submit_quiz. now rewrite H.
  - unfold get_quiz. now rewrite H.
Qed.

Lemma absent_quiz_spec_witness :
  find_quiz sample_store (l_id lesson_2) = None /\
  submit_quiz (l_id lesson_2) {| answers := [0] |} learner sample_store
  = (inl (HTTPException 404 "Quiz not found"), sample_store) /\
  get_quiz (l_id lesson_2) sample_store
  = inr {| qv_id := None; qv_lesson_id := l_id lesson_2;
           qv_questions := Some []; qv_pass_percentage := Some 60 |}.
Proof.
  split; [reflexivity|].
  destruct (absent_quiz_spec (l_id lesson_2) sample_store eq_refl)
    as [Hs Hg].
  split; [apply Hs|exact Hg].
Defined.

(** ** Submitting without being enrolled *)




Lemma find_record_completion u l sc mx db :
  exists lp,
    find (lp_key u l) (lessonprogress (record_completion u l sc mx db))
    = Some lp /\
    lp_is_completed lp = Some true /\ lp_quiz_score lp = Some sc /\
    lp_quiz_total lp = Some mx /\
    (find (lp_key u l) (lessonprogress db) = None -> lp_course_id lp = None).
Proof.
  unfold record_completion.
  rewrite find_upsert_same;
    [|apply set_completed_key|intros; apply new_record_key].
  destruct (find (lp_key u l) (lessonprogress db)) as [x|];
    eexists; (split; [reflexivity|]); cbn; repeat split; congruence.
Qed.

Lemma find_unlock_lesson u c l db u' l' lp :
  find (lp_key u' l') (lessonprogress db) = Some lp ->
  exists lp',
    find (lp_key u' l') (lessonprogress (unlock_lesson u c l db)) = Some lp' /\
    lp_is_completed lp' = lp_is_completed lp /\
    lp_quiz_score lp' = lp_quiz_score lp /\
    lp_quiz_total lp' = lp_quiz_total lp /\
    ((u', l') <> (u, l) -> lp' = lp).
Proof.
  intros H. unfold unlock_lesson.
  destruct (string_dec u' u) as [->|Hu];
    [destruct (string_dec l' l) as [->|Hl]|].
  - rewrite find_upsert_same;
      [|apply set_unlocked_key|intros; apply new_record_key].
    rewrite H. eexists. split; [reflexivity|]. cbn. repeat split.
    intros Hne. now elim Hne.
  - rewrite find_upsert_other;
      [|congruence|apply set_unlocked_key|intros; apply new_record_key].
    exists lp. repeat split; trivial.
  - rewrite find_upsert_other;
      [|congruence|apply set_unlocked_key|intros; apply new_record_key].
    exists lp. repeat split; trivial.
Qed.

Lemma find_lesson_ext db1 db o :
  lesson db1 = lesson db -> find_lesson db1 o = find_lesson db o.
Proof. unfold find_lesson. now intros ->. Qed.

Lemma next_lesson_ext db1 db l :
  lesson db1 = lesson db -> next_lesson db1 l = next_lesson db l.
Proof. unfold next_lesson. now intros ->. Qed.



(** ** Progress records created by a submission *)

Lemma NoDup_map_eq {A B} (f : A -> B) l x y :
  NoDup (map f l) -> In x l -> In y l -> f x = f y -> x = y.
Proof.
  induction l as [|a rest IH]; cbn; intros Hnd Hx Hy E; [contradiction|].
  inversion Hnd as [|? ? Hnot Hrest]; subst.
  destruct Hx as [<-|Hx], Hy as [<-|Hy]; trivial.
  - elim Hnot. rewrite E. now apply in_map.
  - elim Hnot. rewrite <- E. now apply in_map.
  - now apply IH.
Qed.

(** Under unique canonical identifiers, the lesson that follows a lesson
    is filed under another identifier than the one submitted. *)
Lemma next_lesson_other_id db lesson_id o this nxt :
  lesson_ids_ok db ->
  ObjectId_of_str lesson_id = Some o ->
  find_lesson db o = Some this ->
  next_lesson db this = Some nxt ->
  l_id nxt <> lesson_id.
Proof.
  intros [Hnd Hcan] Ho Hthis Hnxt E.
  apply find_some in Hthis. destruct Hthis as [Hin Hid].
  apply String.eqb_eq in Hid.
  apply next_lesson_lowest_greater in Hnxt.
  destruct Hnxt as (Hin' & _ & k & Hk & Hlt & _).
  rewrite Forall_forall in Hcan.
  pose proof (Hcan nxt Hin') as Hc. rewrite E in Hc.
  apply canonical_parse in Hc. rewrite Hc in Ho. injection Ho as <-.
  assert (this = nxt)
    by (apply (NoDup_map_eq l_id (lesson db)); trivial; congruence).
  subst this. rewrite Hk in Hlt. cbn in Hlt. lia.
Qed.

(** C10.  When a submission creates the progress record of the submitted
    lesson, the record has no [course_id]; a listing filtered by a course
    (the user's own or the administrator's report) leaves it out, while
    the user's unfiltered listing shows it. *)
Theorem submit_quiz_new_record_has_no_course lesson_id payload usr db r db' :
  lesson_ids_ok db ->
  find (lp_key (u_id usr) lesson_id) (lessonprogress db) = None ->
  submit_quiz lesson_id payload usr db = (inr r, db') ->
  exists lp,
    find (lp_key (u_id usr) lesson_id) (lessonprogress db') = Some lp /\
    lp_course_id lp = None /\
    In lp (my_progress None usr db') /\
    (forall c, c <> "" -> ~ In lp (my_progress (Some c) usr db')) /\
    (forall c, ~ In lp (admin_reports_progress c db')).
Proof.
  intros Hok Hnone H.
  apply submit_quiz_inr in H. destruct H as (quiz & Hq & H). cbv zeta in H.
  destruct H as (_ & _ & _ & _ & Hdb).
  destruct (find_record_completion (u_id usr) lesson_id (score r) (total r) db)
    as (lp & Hlp & _ & _ & _ & Hc).
  specialize (Hc Hnone).
  set (db1 := record_completion (u_id usr) lesson_id (score r) (total r) db)
    in *.
  assert (Hfind : find (lp_key (u_id usr) lesson_id) (lessonprogress db')
                  = Some lp).
  { rewrite Hdb. destruct (passed r); [|exact Hlp].
    destruct (ObjectId_of_str lesson_id) as [o|] eqn:Ho; [|exact Hlp].
    destruct (find_lesson db o) as [this|] eqn:Et; [|exact Hlp].
    destruct (next_lesson db this) as [nxt|] eqn:En; [|exact Hlp].
    destruct (find_unlock_lesson (u_id usr) (l_course_id this) (l_id nxt)
                db1 _ _ _ Hlp) as (lp' & Hlp' & _ & _ & _ & Heq).
    rewrite Hlp', Heq; [reflexivity|].
    intros E. injection E as E.
    symmetry in E. revert E.
    apply (next_lesson_other_id db lesson_id o this nxt); assumption. }
  exists lp. split; [exact Hfind|]. split; [exact Hc|].
  apply find_some in Hfind. destruct Hfind as [Hin Hkey].
  apply lp_key_true in Hkey. destruct Hkey as [Hu _].
  repeat split.
  - unfold my_progress. apply filter_In. split; [exact Hin|].
    rewrite Hu, String.eqb_refl. reflexivity.
  - intros c Hne Hin'. unfold my_progress in Hin'.
    apply filter_In in Hin'. destruct Hin' as [_ Hf].
    rewrite Hc in Hf. destruct c; [now elim Hne|].
    rewrite andb_false_r in Hf. discriminate.
  - intros c Hin'. unfold admin_reports_progress in Hin'.
    apply filter_In in Hin'. destruct Hin' as [_ Hf].
    rewrite Hc in Hf. discriminate.
Qed.

Lemma submit_quiz_new_record_has_no_course_witness :
  let out := submit_quiz (l_id lesson_0) {| answers := [0; 0] |} learner
               sample_store in
  lesson_ids_ok sample_store /\
  find (lp_key (u_id learner) (l_id lesson_0)) (lessonprogress sample_store)
  = None /\
  exists lp,
    find (lp_key (u_id learner) (l_id lesson_0)) (lessonprogress (snd out))
    = Some lp /\
    lp_course_id lp = None /\
    ~ In lp (my_progress (Some (l_course_id lesson_0)) learner (snd out)) /\
    ~ In lp (admin_reports_progress (l_course_id lesson_0) (snd out)).
Proof.
  intros out.
  assert (Hok : lesson_ids_ok sample_store).
  { split.
    - repeat constructor; cbn; intuition discriminate.
    - repeat constructor. }
  split; [exact Hok|]. split; [reflexivity|].
  assert (E : out = (inr {| score := 100; total := 100; percentage := 100;
                            passed := true |}, snd out))
    by (vm_compute; reflexivity).
  destruct (submit_quiz_new_record_has_no_course _ _ _ _ _ _ Hok eq_refl E)
    as (lp & Hf & Hc & _ & Hmy & Hadm).
  exists lp. split; [exact Hf|]. split; [exact Hc|].
  split; [apply Hmy; discriminate|apply Hadm].
Defined.

(** ** Identifiers and the caller *)

Lemma lower_of_hex c : is_hex c = true -> is_lower_hex (lower c) = true.
Proof.
  destruct c as [[] [] [] [] [] [] [] []]; vm_compute;
    intros H; (reflexivity || discriminate H).
Qed.

Lemma length_map_string f s :
  String.length (map_string f s) = String.length s.
Proof. induction s as [|c s IH]; cbn; [reflexivity|now rewrite IH]. Qed.

Lemma string_pair_ind (P : string -> Prop) :
  P EmptyString ->
  (forall c, P (String c EmptyString)) ->
  (forall c d s, P s -> P (String d s) -> P (String c (String d s))) ->
  forall s, P s.
Proof.
  intros H0 H1 H2 s.
  enough (H : P s /\ forall c, P (String c s)) by apply H.
  induction s as [|d s [IH1 IH2]]; [split; [exact H0|exact H1]|].
  split; [apply IH2|]. intros c. apply H2; [exact IH1|apply IH2].
Qed.

(** What [bytes.fromhex] returns: lower-case hexadecimal digits, an even
    number of them, the text itself in lower case when it holds no white
    space, and a shorter text when it does. *)
Lemma fromhex_spec s : forall o,
  fromhex s = Some o ->
  forall_string is_lower_hex o = true /\
  Nat.even (String.length o) = true /\
  (String.length o <= String.length s)%nat /\
  (no_space s = true -> o = map_string lower s) /\
  (no_space s = false -> (String.length o < String.length s)%nat).
Proof.
  induction s as [| c | c d s IH1 IH2] using string_pair_ind; intros o.
  - cbn. intros H. injection H as <-. cbn. repeat split; auto; discriminate.
  - cbn [fromhex]. destruct (is_space c) eqn:Ec; [|discriminate].
    intros H. injection H as <-. unfold no_space. cbn. rewrite Ec. cbn.
    repeat split; auto; try lia; discriminate.
  - cbn [fromhex]. destruct (is_space c) eqn:Ec.
    + intros H. destruct (IH2 o H) as (Hl & He & Hn & _ & _).
      split; [exact Hl|]. split; [exact He|].
      cbn [String.length] in *. split; [lia|].
      unfold no_space. cbn [forall_string]. rewrite Ec. cbn [negb andb].
      split; [discriminate|]. intros _. lia.
    + destruct (is_hex c && is_hex d) eqn:Eh; [|discriminate].
      apply andb_prop in Eh. destruct Eh as [Hc Hd].
      destruct (fromhex s) as [t|] eqn:Et; [|discriminate].
      intros H. injection H as <-.
      destruct (IH1 t eq_refl) as (Hl & He & Hn & Hsame & Hless).
      cbn [forall_string String.length map_string].
      rewrite (lower_of_hex c Hc), (lower_of_hex d Hd), Hl.
      split; [reflexivity|]. split; [exact He|]. split; [lia|].
      unfold no_space in *. cbn [forall_string].
      rewrite Ec, (hex_not_space d Hd). cbn [negb andb].
      split.
      * intros Hs. now rewrite <- (Hsame Hs).
      * intros Hs. specialize (Hless Hs). lia.
Qed.

(** X1.  An identifier that [oid] accepts comes back as lower-case
    hexadecimal digits.  When the text holds no white space, the result is
    the text in lower case, 24 digits that [oid] accepts again unchanged;
    when it holds white space, which [bytes.fromhex] skips, the result has
    fewer than 24 digits and [oid] refuses it. *)
Theorem oid_normalises s o :
  oid s = inr o ->
  forall_string is_lower_hex o = true /\
  (no_space s = true ->
   o = map_string lower s /\ canonical o = true /\ oid o = inr o) /\
  (no_space s = false ->
   (String.length o < 24)%nat /\
   oid o = inl (HTTPException 400 "Invalid id")).
Proof.
  unfold oid at 1, ObjectId_of_str.
  destruct (String.length s =? 24)%nat eqn:Hlen; [|discriminate].
  apply Nat.eqb_eq in Hlen.
  destruct (fromhex s) as [o'|] eqn:E; [|discriminate].
  intros H. injection H as <-.
  destruct (fromhex_spec s o' E) as (Hl & _ & _ & Hsame & Hless).
  split; [exact Hl|]. split.
  - intros Hs. specialize (Hsame Hs).
    assert (Hc : canonical o' = true).
    { unfold canonical. rewrite Hl, Hsame, length_map_string, Hlen.
      reflexivity. }
    split; [exact Hsame|]. split; [exact Hc|].
    unfold oid. now rewrite (canonical_parse o' Hc).
  - intros Hs. specialize (Hless Hs). rewrite Hlen in Hless.
    split; [exact Hless|].
    unfold oid, ObjectId_of_str.
    destruct (Nat.eqb_spec (String.length o') 24) as [E24|_]; [lia|].
    reflexivity.
Qed.

Lemma oid_normalises_witness :
  oid "6500000000000000000000A0" = inr "6500000000000000000000a0" /\
  oid "6500000000000000000000a0" = inr "6500000000000000000000a0" /\
  oid "65 00 0000000000000000A0" = inr "65000000000000000000a0" /\
  oid "65000000000000000000a0" = inl (HTTPException 400 "Invalid id").
Proof.
  split; [reflexivity|].
  destruct (oid_normalises "6500000000000000000000A0"
              "6500000000000000000000a0" eq_refl) as (_ & H & _).
  destruct (H eq_refl) as (_ & _ & E). split; [exact E|].
  split; [reflexivity|].
  destruct (oid_normalises "65 00 0000000000000000A0"
              "65000000000000000000a0" eq_refl) as (_ & _ & H').
  destruct (H' eq_refl) as (_ & E'). exact E'.
Defined.

(** X2.  [current_user] answers with a user only for a non-empty header
    that is a well-formed identifier, and the user is the document the
    store finds under its own identifier. *)
Theorem current_user_sound x_user_id db u :
  current_user x_user_id db = inr u ->
  exists s, x_user_id = Some s /\ s <> "" /\ oid s = inr (u_id u) /\
            In u (user db) /\ find_user db (u_id u) = Some u.
Proof.
  unfold current_user, get_user_or_404.
  destruct x_user_id as [[|c s]|]; try discriminate.
  destruct (oid (String c s)) as [e|o] eqn:Eo; [discriminate|].
  destruct (find_user db o) as [u'|] eqn:Ef; [|discriminate].
  intros H. injection H as <-.
  pose proof Ef as Ef'. unfold find_user in Ef'.
  apply find_some in Ef'. destruct Ef' as [Hin Hid].
  apply String.eqb_eq in Hid. subst o.
  exists (String c s). repeat split; trivial. discriminate.
Qed.

Lemma current_user_sound_witness :
  current_user (Some "650000000000000000000001") sample_store = inr learner /\
  exists s, Some "650000000000000000000001" = Some s /\ s <> "" /\
            oid s = inr (u_id learner) /\ In learner (user sample_store) /\
            find_user sample_store (u_id learner) = Some learner.
Proof.
  split; [reflexivity|].
  apply (current_user_sound (Some "650000000000000000000001") sample_store
           learner). reflexivity.
Defined.



Lemma current_user_error_status x_user_id db e :
  current_user x_user_id db = inl e ->
  exists status detail,
    e = HTTPException status detail /\ (status = 400 \/ status = 401).
Proof.
  unfold current_user, get_user_or_404, oid.
  destruct x_user_id as [[|c s]|]; try (intros H; injection H as <-; eauto).
  destruct (ObjectId_of_str (String c s)) as [o|].
  - destruct (find_user db o); [discriminate|].
    intros H; injection H as <-; eauto.
  - intros H; injection H as <-; eauto.
Qed.

(** X4.  A route behind [admin_required] runs its body only for a caller
    whose stored role is admin or instructor; for every other caller it
    answers 400, 401 or 403 and leaves the store as it was. *)
Theorem with_admin_gate {A} (body : Store -> result A * Store)
  x_user_id db res db' :
  with_admin body x_user_id db = (res, db') ->
  (exists u, current_user x_user_id db = inr u /\
             (u_role u = Some "admin" \/ u_role u = Some "instructor") /\
             body db = (res, db')) \/
  (db' = db /\
   exists status detail,
     res = inl (HTTPException status detail) /\
     (status = 400 \/ status = 401 \/ status = 403)).
Proof.
  unfold with_admin.
  destruct (current_user x_user_id db) as [e|u] eqn:Ec.
  - intros H. injection H as <- <-. right. split; [reflexivity|].
    destruct (current_user_error_status _ _ _ Ec) as (st & dt & -> & Hst).
    exists st, dt. split; [reflexivity|]. tauto.
  - unfold admin_required.
    destruct (u_role u) as [r|] eqn:Er.
    + destruct (String.eqb_spec r "admin") as [->|Ha]; cbn [orb].
      * intros H. left. exists u. auto.
      * destruct (String.eqb_spec r "instructor") as [->|Hi].
        -- intros H. left. exists u. auto.
        -- intros H. injection H as <- <-. right.
           split; [reflexivity|]. eauto 7.
    + intros H. injection H as <- <-. right. split; [reflexivity|]. eauto 7.
Qed.

Lemma with_admin_gate_witness :
  with_admin (admin_unlock {| ur_user_id := u_id learner;
                              ur_lesson_id := l_id lesson_1 |})
    (Some (u_id learner)) staffed_store
  = (inl (HTTPException 403 "Admin access required"), staffed_store) /\
  exists db',
    with_admin (admin_unlock {| ur_user_id := u_id learner;
                                ur_lesson_id := l_id lesson_1 |})
      (Some (u_id teacher)) staffed_store = (inr {| ok := true |}, db') /\
    is_unlocked db' (u_id learner) (l_id lesson_1) = true.
Proof.
  split; [reflexivity|].
  eexists. split; [reflexivity|].
  destruct (with_admin_gate
              (admin_unlock {| ur_user_id := u_id learner;
                               ur_lesson_id := l_id lesson_1 |})
              (Some (u_id teacher)) staffed_store _ _ eq_refl)
    as [(u & _ & _ & _)|[H _]]; reflexivity.
Defined.

(** ** The administrator's unlock *)

Lemma find_unlock_lesson_same u c l db :
  exists lp,
    find (lp_key u l) (lessonprogress (unlock_lesson u c l db)) = Some lp /\
    lp_course_id lp = Some c /\ lp_is_unlocked lp = Some true.
Proof.
  unfold unlock_lesson.
  rewrite find_upsert_same;
    [|apply set_unlocked_key|intros; apply new_record_key].
  destruct (find (lp_key u l) (lessonprogress db));
    eexists; (split; [reflexivity|]); split; reflexivity.
Qed.

(** X5.  [admin_unlock] answers 400 for a lesson identifier that does not
    parse and 404 for one that no stored lesson bears, and then leaves the
    store as it was.  For the identifier of a stored lesson it succeeds,
    whether or not the named user exists: the progress record it writes is
    filed under the text of the request, is unlocked, carries the lesson's
    course, so that the course's progress report lists it, and no other
    unlock state changes.  The text of a canonical request is the lesson's
    own identifier; under any other text that parses to it, the unlock
    state of the lesson itself stays as it was.  The identifiers of the
    stored lessons are distinct. *)
Theorem admin_unlock_spec req db :
  NoDup (map l_id (lesson db)) ->
  match ObjectId_of_str (ur_lesson_id req) with
  | None => admin_unlock req db = (inl (HTTPException 400 "Invalid id"), db)
  | Some o =>
      ((forall x, In x (lesson db) -> l_id x <> o) ->
       admin_unlock req db
       = (inl (HTTPException 404 "Lesson not found"), db)) /\
      (forall l, In l (lesson db) -> l_id l = o ->
         (canonical (ur_lesson_id req) = true -> ur_lesson_id req = l_id l) /\
         exists db',
           admin_unlock req db = (inr {| ok := true |}, db') /\
           is_unlocked db' (ur_user_id req) (ur_lesson_id req) = true /\
           (forall u' l', (u', l') <> (ur_user_id req, ur_lesson_id req) ->
              is_unlocked db' u' l' = is_unlocked db u' l') /\
           (ur_lesson_id req <> l_id l ->
            is_unlocked db' (ur_user_id req) (l_id l)
            = is_unlocked db (ur_user_id req) (l_id l)) /\
           exists lp,
             find (lp_key (ur_user_id req) (ur_lesson_id req))
               (lessonprogress db') = Some lp /\
             lp_course_id lp = Some (l_course_id l) /\
             In lp (admin_reports_progress (l_course_id l) db'))
  end.
Proof.
  intros Hnd. unfold admin_unlock, oid.
  destruct (ObjectId_of_str (ur_lesson_id req)) as [o|] eqn:Eo;
    [|reflexivity].
  split.
  - intros Habs. now rewrite (find_lesson_absent db o Habs).
  - intros l Hin Hid.
    rewrite (find_lesson_unique db o l Hnd Hin Hid). split.
    + intros Hc. apply canonical_parse in Hc. congruence.
    + eexists. split; [reflexivity|].
      split; [apply is_unlocked_unlock_lesson_same|].
      split; [intros u' l' Hne; now apply is_unlocked_unlock_lesson_other|].
      split.
      * intros Hne. apply is_unlocked_unlock_lesson_other. congruence.
      * destruct (find_unlock_lesson_same (ur_user_id req) (l_course_id l)
                    (ur_lesson_id req) db) as (lp & Hf & Hc & _).
        exists lp. split; [exact Hf|]. split; [exact Hc|].
        unfold admin_reports_progress. apply filter_In.
        apply find_some in Hf. destruct Hf as [Hin' _].
        split; [exact Hin'|]. rewrite Hc. apply String.eqb_refl.
Qed.

Lemma admin_unlock_spec_witness :
  let req := {| ur_user_id := u_id learner;
                ur_lesson_id := "6500000000000000000000A1" |} in
  NoDup (map l_id (lesson sample_store)) /\
  ObjectId_of_str (ur_lesson_id req) = Some (l_id lesson_1) /\
  exists db',
    admin_unlock req sample_store = (inr {| ok := true |}, db') /\
    is_unlocked db' (u_id learner) "6500000000000000000000A1" = true /\
    is_unlocked db' (u_id learner) (l_id lesson_1) = false.
Proof.
  intros req.
  assert (Hnd : NoDup (map l_id (lesson sample_store)))
    by (repeat constructor; cbn; intuition discriminate).
  assert (E : ObjectId_of_str (ur_lesson_id req) = Some (l_id lesson_1))
    by reflexivity.
  split; [exact Hnd|]. split; [exact E|].
  pose proof (admin_unlock_spec req sample_store Hnd) as H.
  rewrite E in H. destruct H as [_ H].
  destruct (H lesson_1 (or_intror (or_introl eq_refl)) eq_refl)
    as (_ & db' & E1 & Hu & _ & Hown & _).
  exists db'. split; [exact E1|]. split; [exact Hu|].
  transitivity (is_unlocked sample_store (ur_user_id req) (l_id lesson_1));
    [|reflexivity].
  apply Hown. vm_compute. discriminate.
Defined.

(** ** Setting and reading a quiz *)

Lemma upsert_quiz_find lesson_id q db :
  quiz_lesson_id q = lesson_id ->
  exists d,
    find_quiz (upsert_quiz lesson_id q db) lesson_id = Some d /\
    qz_lesson_id d = lesson_id /\
    qz_questions d = Some (map dump_question (quiz_questions q)) /\
    qz_pass_percentage d = Some (quiz_pass_percentage q).
Proof.
  intros Hl. unfold find_quiz, upsert_quiz. cbv zeta.
  set (p := fun d => (qz_lesson_id d =? lesson_id)%string).
  set (mk := quiz_doc q).
  assert (Hp : forall i, p (mk i) = true)
    by (intros i; unfold p, mk, quiz_doc; cbn; rewrite Hl; apply String.eqb_refl).
  destruct (update_first p (fun d => mk (qz_id d)) (quiz db)) as [qs|] eqn:E;
    cbn [quiz].
  - rewrite (find_update_first_same p _ _ _ (fun x _ => Hp (qz_id x)) E).
    destruct (find p (quiz db)) as [x|] eqn:F.
    + exists (mk (qz_id x)). cbn. auto.
    + apply (proj2 (update_first_none p (fun d => mk (qz_id d)) _)) in F.
      congruence.
  - apply update_first_none in E. rewrite find_snoc, E, Hp.
    eexists. split; [reflexivity|]. cbn. auto.
Qed.

Lemma upsert_quiz_find_other lesson_id q db other :
  quiz_lesson_id q = lesson_id -> other <> lesson_id ->
  find_quiz (upsert_quiz lesson_id q db) other = find_quiz db other.
Proof.
  intros Hl Hne. unfold find_quiz, upsert_quiz. cbv zeta.
  set (p := fun d => (qz_lesson_id d =? lesson_id)%string).
  set (p' := fun d => (qz_lesson_id d =? other)%string).
  set (mk := quiz_doc q).
  assert (Hp' : forall i, p' (mk i) = false).
  { intros i. unfold p', mk, quiz_doc. cbn. rewrite Hl.
    apply String.eqb_neq. congruence. }
  destruct (update_first p (fun d => mk (qz_id d)) (quiz db)) as [qs|] eqn:E;
    cbn [quiz].
  - apply (find_update_first_other p p' (fun d => mk (qz_id d)) (quiz db));
      [|exact E].
    intros x Hx. split; [|apply Hp'].
    unfold p in Hx. apply String.eqb_eq in Hx.
    unfold p'. apply String.eqb_neq. congruence.
  - rewrite find_snoc, Hp'. now destruct (find p' (quiz db)).
Qed.

Lemma update_first_count {A} (p : A -> bool) f l l' :
  (forall x, p x = true -> p (f x) = true) ->
  update_first p f l = Some l' ->
  List.length (filter p l') = List.length (filter p l).
Proof.
  intros Hf. revert l'.
  induction l as [|x rest IH]; cbn; intros l' H; [discriminate|].
  destruct (p x) eqn:Px.
  - injection H as <-. cbn. now rewrite (Hf x Px).
  - destruct (update_first p f rest) as [r|]; [|discriminate].
    injection H as <-. cbn. rewrite Px. now apply IH.
Qed.

(** X6.  A quiz that [set_quiz] has stored for a lesson is the quiz read
    back for that lesson: [get_quiz] returns its questions, with their
    points and correct answers, and its pass mark.  A quiz addressed to
    another lesson than the one in the path is refused with 400 and
    nothing is stored. *)
Theorem set_quiz_get_quiz lesson_id q db :
  (quiz_lesson_id q <> lesson_id ->
   set_quiz lesson_id q db
   = (inl (HTTPException 400 "lesson_id mismatch"), db)) /\
  (forall r db',
     set_quiz lesson_id q db = (inr r, db') ->
     quiz_lesson_id q = lesson_id /\
     exists i,
       get_quiz lesson_id db'
       = inr {| qv_id := Some i; qv_lesson_id := lesson_id;
                qv_questions := Some (map dump_question (quiz_questions q));
                qv_pass_percentage := Some (quiz_pass_percentage q) |}).
Proof.
  unfold set_quiz. split.
  - intros H. apply String.eqb_neq in H. now rewrite H.
  - intros r db'.
    destruct (String.eqb_spec (quiz_lesson_id q) lesson_id) as [H|H];
      cbn [negb]; [|discriminate].
    intros E. injection E as _ <-. split; [exact H|].
    destruct (upsert_quiz_find lesson_id q db H) as (d & Hf & Hl & Hq & Hp).
    exists (qz_id d).
    unfold get_quiz. rewrite Hf, Hl, Hq, Hp. reflexivity.
Qed.

Lemma set_quiz_get_quiz_witness :
  let q := {| quiz_lesson_id := l_id lesson_2;
              quiz_questions :=
                [{| qn_prompt := "?"; qn_options := ["a"; "b"];
                    qn_correct_index := 1; qn_points := 5 |}];
              quiz_pass_percentage := 50 |} in
  exists db',
    set_quiz (l_id lesson_2) q sample_store = (inr {| ok := true |}, db') /\
    exists i,
      get_quiz (l_id lesson_2) db'
      = inr {| qv_id := Some i; qv_lesson_id := l_id lesson_2;
               qv_questions := Some (map dump_question (quiz_questions q));
               qv_pass_percentage := Some 50 |}.
Proof.
  intros q. eexists. split; [reflexivity|].
  destruct (set_quiz_get_quiz (l_id lesson_2) q sample_store) as [_ H].
  destruct (H _ _ eq_refl) as [_ Hg]. exact Hg.
Defined.

(** X7.  Setting the quiz of one lesson leaves the quiz of every other
    lesson as it was, and never adds a second quiz to a lesson that has
    one: the lesson has one quiz document afterwards if it had none, and
    as many as before otherwise. *)
Theorem set_quiz_one_per_lesson lesson_id q db db' :
  set_quiz lesson_id q db = (inr {| ok := true |}, db') ->
  (forall other, other <> lesson_id ->
     find_quiz db' other = find_quiz db other) /\
  let count d :=
    List.length
      (filter (fun x => (qz_lesson_id x =? lesson_id)%string) (quiz d)) in
  count db' = Nat.max 1 (count db).
Proof.
  unfold set_quiz.
  destruct (String.eqb_spec (quiz_lesson_id q) lesson_id) as [Hl|];
    [|discriminate].
  cbn [negb]. intros H. injection H as <-. split.
  - intros other Hne. now apply upsert_quiz_find_other.
  - cbv zeta. unfold upsert_quiz. cbv zeta.
    set (p := fun d => (qz_lesson_id d =? lesson_id)%string).
    set (mk := quiz_doc q).
    assert (Hp : forall i, p (mk i) = true)
      by (intros i; unfold p, mk, quiz_doc; cbn; rewrite Hl; apply String.eqb_refl).
    destruct (update_first p (fun d => mk (qz_id d)) (quiz db)) as [qs|] eqn:E;
      cbn [quiz].
    + rewrite (update_first_count p _ _ _ (fun x _ => Hp (qz_id x)) E).
      assert (Hpos : filter p (quiz db) <> []).
      { intros F. destruct (find p (quiz db)) as [x|] eqn:Ef.
        - apply find_some in Ef. destruct Ef as [Hin Hx].
          assert (In x (filter p (quiz db))) by (apply filter_In; auto).
          rewrite F in H. contradiction.
        - apply (proj2 (update_first_none p (fun d => mk (qz_id d)) _)) in Ef.
          congruence. }
      destruct (filter p (quiz db)); [congruence|cbn; lia].
    + apply update_first_none in E.
      rewrite filter_app, (find_none_filter p _ E). cbn [filter app].
      rewrite Hp. reflexivity.
Qed.

Lemma set_quiz_one_per_lesson_witness :
  let q := {| quiz_lesson_id := l_id lesson_0;
              quiz_questions :=
                [{| qn_prompt := "1 + 1"; qn_options := ["1"; "2"];
                    qn_correct_index := 1; qn_points := 5 |}];
              quiz_pass_percentage := 50 |} in
  let db' := snd (set_quiz (l_id lesson_0) q sample_store) in
  find_quiz db' (l_id lesson_1) = Some quiz_1 /\
  List.length
    (filter (fun x => (qz_lesson_id x =? l_id lesson_0)%string) (quiz db'))
  = 1%nat.
Proof.
  intros q db'.
  destruct (set_quiz_one_per_lesson (l_id lesson_0) q sample_store db'
              eq_refl) as [Hother Hcount].
  split; [|exact Hcount].
  rewrite Hother; [reflexivity|]. vm_compute. discriminate.
Defined.

(** ** Exact percentages *)

Module PyFloatExact.
Import PyFloat.

Lemma div_core_same m :
  SFdiv_core_binary prec emax (Z.pos m) 0 (Z.pos m) 0
  = (2 ^ 53, -53, loc_Exact).
Proof.
  unfold SFdiv_core_binary.
  replace (Zdigits2 (Z.pos m) + 0 - (Zdigits2 (Z.pos m) + 0)) with 0 by lia.
  change (Z.min (fexp prec emax 0) (0 - 0)) with (-53).
  change (0 - 0 - -53) with 53. cbv iota beta.
  rewrite Z.shiftl_mul_pow2 by lia.
  assert (E : Z.div_eucl (Z.pos m * 2 ^ 53) (Z.pos m) = (2 ^ 53, 0)).
  { pose proof (Z.div_mul (2 ^ 53) (Z.pos m) ltac:(lia)) as Hd.
    pose proof (Z.mod_mul (2 ^ 53) (Z.pos m) ltac:(lia)) as Hm.
    unfold Z.div, Z.modulo in Hd, Hm.
    rewrite (Z.mul_comm (Z.pos m)).
    destruct (Z.div_eucl (2 ^ 53 * Z.pos m) (Z.pos m)) as [q r].
    cbn [fst snd] in Hd, Hm. now subst. }
  rewrite E.
  now rewrite PyFloatFacts.new_location_0.
Qed.

Lemma percent_same m : m <> 0 -> percent m m = inr 100.
Proof.
  intros Hm. unfold percent, int_true_divide.
  destruct (Z.eqb_spec m 0) as [|_]; [contradiction|].
  destruct m as [|p|p]; [contradiction| |];
    cbn [float_of_int SFdiv]; rewrite div_core_same; reflexivity.
Qed.

Lemma percent_zero m : m <> 0 -> percent 0 m = inr 0.
Proof.
  intros Hm. unfold percent, int_true_divide.
  destruct (Z.eqb_spec m 0) as [|_]; [contradiction|].
  destruct m as [|p|p]; [contradiction| |]; reflexivity.
Qed.

End PyFloatExact.

Lemma total_nonzero qs : (if sum_points qs =? 0 then 1 else sum_points qs) <> 0.
Proof. destruct (Z.eqb_spec (sum_points qs) 0); lia. Qed.

(** X8.  The rounding of the percentage spares the two ends of the scale:
    a submission whose score is the total is reported as 100 percent, and
    one whose score is 0 as 0 percent. *)
Theorem submit_quiz_extremes lesson_id payload usr db r db' :
  submit_quiz lesson_id payload usr db = (inr r, db') ->
  (score r = total r -> percentage r = 100) /\
  (score r = 0 -> percentage r = 0).
Proof.
  intros H. apply submit_quiz_inr in H. destruct H as (quiz & _ & H).
  cbv zeta in H. destruct H as (_ & Ht & Hp & _).
  assert (Hnz : total r <> 0) by (rewrite Ht; apply total_nonzero).
  split; intros E; rewrite E in Hp.
  - rewrite (PyFloatExact.percent_same _ Hnz) in Hp. congruence.
  - rewrite (PyFloatExact.percent_zero _ Hnz) in Hp. congruence.
Qed.

Lemma submit_quiz_extremes_witness :
  let out := submit_quiz (l_id lesson_0) {| answers := [0; 0] |} learner
               sample_store in
  exists r, fst out = inr r /\ score r = total r /\ percentage r = 100.
Proof.
  intros out.
  assert (E : out = (inr {| score := 100; total := 100; percentage := 100;
                            passed := true |}, snd out))
    by (vm_compute; reflexivity).
  eexists. split; [rewrite E; reflexivity|]. split; [reflexivity|].
  apply (submit_quiz_extremes _ _ _ _ _ _ E). reflexivity.
Defined.

(** ** Answer lists of any length *)

Lemma score_spec_surplus qs : forall i ans extra,
  (i + List.length qs <= List.length ans)%nat ->
  score_spec i qs (ans ++ extra) = score_spec i qs ans.
Proof.
  induction qs as [|q rest IH]; intros i ans extra H; cbn [score_spec];
    [reflexivity|].
  cbn [List.length] in H.
  rewrite nth_error_app1 by lia. rewrite IH by lia. reflexivity.
Qed.

Lemma score_spec_no_answers qs : forall i, score_spec i qs [] = 0.
Proof.
  induction qs as [|q rest IH]; intros i; cbn [score_spec]; [reflexivity|].
  rewrite IH. now destruct i.
Qed.

(** X9.  Answers beyond the last question are ignored: a submission with
    surplus answers has the response and the effect of the submission
    without them. *)
Theorem submit_quiz_ignores_surplus_answers lesson_id ans extra usr db quiz :
  find_quiz db lesson_id = Some quiz ->
  (List.length (dflt [] (qz_questions quiz)) <= List.length ans)%nat ->
  submit_quiz lesson_id {| answers := ans ++ extra |} usr db
  = submit_quiz lesson_id {| answers := ans |} usr db.
Proof.
  intros Hq Hlen. unfold submit_quiz. rewrite Hq. cbv zeta.
  rewrite !score_loop_spec. cbn [answers].
  rewrite score_spec_surplus by (cbn; lia). reflexivity.
Qed.

Lemma submit_quiz_ignores_surplus_answers_witness :
  submit_quiz (l_id lesson_0) {| answers := [0; 1] ++ [7; 7; 7] |} learner
    sample_store
  = submit_quiz (l_id lesson_0) {| answers := [0; 1] |} learner sample_store.
Proof.
  apply (submit_quiz_ignores_surplus_answers (l_id lesson_0) [0; 1]
           [7; 7; 7] learner sample_store quiz_0).
  - reflexivity.
  - cbn. lia.
Defined.

(** X10.  Questions left unanswered count as wrong and raise no error: a
    submission with no answers at all succeeds with score 0 and 0 percent
    on every quiz with a positive pass mark whose total the store can
    hold, and still marks the lesson completed. *)
Theorem submit_quiz_no_answers lesson_id usr db qz :
  find_quiz db lesson_id = Some qz ->
  int64 (sum_points (dflt [] (qz_questions qz))) ->
  (0 < dflt 60 (qz_pass_percentage qz)) ->
  exists mx db',
    submit_quiz lesson_id {| answers := [] |} usr db
    = (inr {| score := 0; total := mx; percentage := 0; passed := false |},
       db') /\
    int64 mx /\
    exists lp,
      find (lp_key (u_id usr) lesson_id) (lessonprogress db') = Some lp /\
      lp_is_completed lp = Some true /\ lp_quiz_score lp = Some 0 /\
      lp_quiz_total lp = Some mx.
Proof.
  intros Hq Hb Hpass. unfold submit_quiz. rewrite Hq. cbv zeta.
  rewrite score_loop_spec. cbn [answers].
  rewrite score_spec_no_answers, Z.add_0_l.
  set (mx := if sum_points (dflt [] (qz_questions qz)) =? 0 then 1
             else sum_points (dflt [] (qz_questions qz))).
  assert (Hmx : int64 mx).
  { unfold mx. destruct (sum_points (dflt [] (qz_questions qz)) =? 0);
      [|exact Hb]. split; [discriminate|reflexivity]. }
  rewrite (PyFloatExact.percent_zero mx (total_nonzero _)).
  destruct (Z.leb_spec (dflt 60 (qz_pass_percentage qz)) 0); [lia|].
  eexists mx, _. split; [reflexivity|]. split; [exact Hmx|].
  destruct (find_record_completion (u_id usr) lesson_id 0 mx db)
    as (lp & Hf & Hc & Hs & Ht & _).
  exists lp. auto.
Qed.

Lemma submit_quiz_no_answers_witness :
  find_quiz sample_store (l_id lesson_1) = Some quiz_1 /\
  int64 (sum_points (dflt [] (qz_questions quiz_1))) /\
  exists mx db',
    submit_quiz (l_id lesson_1) {| answers := [] |} learner sample_store
    = (inr {| score := 0; total := mx; percentage := 0; passed := false |},
       db') /\
    int64 mx /\
    exists lp,
      find (lp_key (u_id learner) (l_id lesson_1)) (lessonprogress db')
      = Some lp /\
      lp_is_completed lp = Some true /\ lp_quiz_score lp = Some 0 /\
      lp_quiz_total lp = Some mx.
Proof.
  assert (Hb : int64 (sum_points (dflt [] (qz_questions quiz_1))))
    by (split; [discriminate|reflexivity]).
  split; [reflexivity|]. split; [exact Hb|].
  apply (submit_quiz_no_answers (l_id lesson_1) learner sample_store quiz_1);
    [reflexivity|exact Hb|reflexivity].
Defined.

(** ** Submitting again *)

Lemma update_first_fix {A} (p : A -> bool) f l x :
  find p l = Some x -> f x = x -> update_first p f l = Some l.
Proof.
  induction l as [|y rest IH]; cbn; intros Hf Hx; [discriminate|].
  destruct (p y).
  - injection Hf as ->. now rewrite Hx.
  - now rewrite (IH Hf Hx).
Qed.

Lemma upsert_lessonprogress_fix u l f mk db x :
  find (lp_key u l) (lessonprogress db) = Some x -> f x = x ->
  upsert_lessonprogress u l f mk db = db.
Proof.
  intros Hf Hx. unfold upsert_lessonprogress.
  rewrite (update_first_fix _ f _ x Hf Hx). now destruct db.
Qed.

Lemma submit_quiz_keeps_collections lesson_id payload usr db res db' :
  submit_quiz lesson_id payload usr db = (res, db') ->
  user db' = user db /\ lesson db' = lesson db /\ quiz db' = quiz db /\
  enrollment db' = enrollment db /\ transaction db' = transaction db /\
  notification db' = notification db.
Proof.
  unfold submit_quiz.
  destruct (find_quiz db lesson_id) as [qz|];
    [|intros H; injection H as _ <-; repeat split].
  cbv zeta.
  destruct (PyFloat.percent _ _) as [e|pct];
    [intros H; injection H as _ <-; repeat split|].
  set (db1 := record_completion _ _ _ _ db).
  assert (H1 : user db1 = user db /\ lesson db1 = lesson db /\
               quiz db1 = quiz db /\ enrollment db1 = enrollment db /\
               transaction db1 = transaction db /\
               notification db1 = notification db)
    by apply upsert_lessonprogress_frame.
  destruct (dflt 60 (qz_pass_percentage qz) <=? pct);
    [|intros H; injection H as _ <-; exact H1].
  destruct (oid lesson_id) as [e|o];
    [intros H; injection H as _ <-; exact H1|].
  destruct (find_lesson db1 o) as [this|];
    [|intros H; injection H as _ <-; exact H1].
  destruct (next_lesson db1 this) as [nxt|];
    [|intros H; injection H as _ <-; exact H1].
  intros H. injection H as _ <-.
  pose proof (upsert_lessonprogress_frame (u_id usr) (l_id nxt)
                (set_unlocked (u_id usr) (l_course_id this) (l_id nxt))
                (fun i =>
                   {| lp_id := i; lp_user_id := u_id usr;
                      lp_course_id := Some (l_course_id this);
                      lp_lesson_id := l_id nxt;
                      lp_is_unlocked := Some true;
                      lp_is_completed := None;
                      lp_quiz_score := None;
                      lp_quiz_total := None |}) db1) as H2.
  cbv zeta in H2. fold (unlock_lesson (u_id usr) (l_course_id this)
                          (l_id nxt) db1) in H2.
  destruct H1 as (A1 & A2 & A3 & A4 & A5 & A6).
  destruct H2 as (B1 & B2 & B3 & B4 & B5 & B6).
  repeat split; congruence.
Qed.

Lemma submit_quiz_passed_oid lesson_id payload usr db r db' :
  submit_quiz lesson_id payload usr db = (inr r, db') ->
  passed r = true -> exists o, ObjectId_of_str lesson_id = Some o.
Proof.
  unfold submit_quiz.
  destruct (find_quiz db lesson_id) as [qz|]; [|discriminate].
  cbv zeta.
  destruct (PyFloat.percent _ _) as [e|pct]; [discriminate|].
  destruct (dflt 60 (qz_pass_percentage qz) <=? pct) eqn:Epass.
  - unfold oid.
    destruct (ObjectId_of_str lesson_id) as [o|]; [eauto|discriminate].
  - intros H Hp. injection H as <- _. cbn in Hp. congruence.
Qed.

Lemma set_completed_fix sc mx lp :
  lp_is_completed lp = Some true -> lp_quiz_score lp = Some sc ->
  lp_quiz_total lp = Some mx -> set_completed sc mx lp = lp.
Proof.
  destruct lp; cbn. intros -> -> ->. reflexivity.
Qed.

Lemma set_unlocked_fix u c l lp :
  lp_key u l lp = true -> lp_course_id lp = Some c ->
  lp_is_unlocked lp = Some true -> set_unlocked u c l lp = lp.
Proof.
  intros Hk. apply lp_key_true in Hk. destruct Hk as [Hu Hl].
  destruct lp; cbn in *. intros -> ->. now subst.
Qed.

(** X11.  Submitting the same answers again is idempotent: the second
    submission returns the response of the first and leaves the store
    exactly as the first left it, the lesson still completed. *)
Theorem submit_quiz_again lesson_id payload usr db r db' :
  submit_quiz lesson_id payload usr db = (inr r, db') ->
  submit_quiz lesson_id payload usr db' = (inr r, db').
Proof.
  intros H.
  pose proof (submit_quiz_keeps_collections _ _ _ _ _ _ H)
    as (_ & Hles & Hqz & _).
  pose proof (submit_quiz_passed_oid _ _ _ _ _ _ H) as Hoid.
  apply submit_quiz_inr in H. destruct H as (quiz & Hq & H). cbv zeta in H.
  destruct H as (Hs & Ht & Hp & Hpass & Hdb).
  set (db1 := record_completion (u_id usr) lesson_id (score r) (total r) db)
    in *.
  destruct (find_record_completion (u_id usr) lesson_id (score r) (total r)
              db) as (lp & Hlp & Hc1 & Hc2 & Hc3 & _). fold db1 in Hlp.
  (* the record of the submitted lesson, as the first submission left it *)
  assert (Hrec : exists lp',
            find (lp_key (u_id usr) lesson_id) (lessonprogress db') = Some lp'
            /\ lp_is_completed lp' = Some true
            /\ lp_quiz_score lp' = Some (score r)
            /\ lp_quiz_total lp' = Some (total r)).
  { rewrite Hdb. destruct (passed r); [|eauto].
    destruct (ObjectId_of_str lesson_id) as [o|]; [|eauto].
    destruct (find_lesson db o) as [this|]; [|eauto].
    destruct (next_lesson db this) as [nxt|]; [|eauto].
    destruct (find_unlock_lesson (u_id usr) (l_course_id this) (l_id nxt)
                db1 _ _ _ Hlp) as (lp' & Hf & E1 & E2 & E3 & _).
    exists lp'. repeat split; congruence. }
  destruct Hrec as (lp' & Hf' & E1 & E2 & E3).
  assert (Hfix : record_completion (u_id usr) lesson_id (score r) (total r)
                   db' = db').
  { unfold record_completion.
    apply (upsert_lessonprogress_fix _ _ _ _ _ lp' Hf').
    now apply set_completed_fix. }
  unfold submit_quiz. unfold find_quiz in *. rewrite Hqz, Hq. cbv zeta.
  rewrite score_loop_spec, Z.add_0_l, <- Hs, <- Ht, Hp, Hfix, <- Hpass.
  destruct r as [sc mx pct ps]. cbn [score total percentage passed] in *.
  destruct ps; [|reflexivity].
  unfold oid. destruct (ObjectId_of_str lesson_id) as [o|] eqn:Ho.
  - rewrite (find_lesson_ext db' db o Hles).
    destruct (find_lesson db o) as [this|]; [|reflexivity].
    rewrite (next_lesson_ext db' db this Hles).
    destruct (next_lesson db this) as [nxt|]; [|reflexivity].
    destruct (find_unlock_lesson_same (u_id usr) (l_course_id this)
                (l_id nxt) db1) as (lpn & Hfn & Hcn & Hun).
    rewrite <- Hdb in Hfn.
    assert (Hk : lp_key (u_id usr) (l_id nxt) lpn = true)
      by (apply find_some in Hfn; tauto).
    unfold unlock_lesson at 1.
    rewrite (upsert_lessonprogress_fix _ _ _ _ _ lpn Hfn
               (set_unlocked_fix _ _ _ _ Hk Hcn Hun)).
    reflexivity.
  - destruct (Hoid eq_refl) as [o Ho']. congruence.
Qed.

Lemma submit_quiz_again_witness :
  let out := submit_quiz (l_id lesson_0) {| answers := [0; 0] |} learner
               sample_store in
  exists r, fst out = inr r /\
    submit_quiz (l_id lesson_0) {| answers := [0; 0] |} learner (snd out)
    = (inr r, snd out).
Proof.
  intros out.
  assert (E : out = (inr {| score := 100; total := 100; percentage := 100;
                            passed := true |}, snd out))
    by (vm_compute; reflexivity).
  eexists. split; [rewrite E; reflexivity|].
  apply (submit_quiz_again _ _ _ _ _ _ E).
Defined.

(** X12.  A quiz submission, whatever its outcome, never rewards or
    charges anyone: every user's document, and with it every balance, is
    as before, and no transaction or notification is written. *)
Theorem submit_quiz_never_pays lesson_id payload usr db res db' :
  submit_quiz lesson_id payload usr db = (res, db') ->
  (forall id, find_user db' id = find_user db id) /\
  transaction db' = transaction db /\ notification db' = notification db.
Proof.
  intros H.
  destruct (submit_quiz_keeps_collections _ _ _ _ _ _ H)
    as (Hu & _ & _ & _ & Ht & Hn).
  repeat split; trivial. intros id. unfold find_user. now rewrite Hu.
Qed.

Lemma submit_quiz_never_pays_witness :
  let out := submit_quiz (l_id lesson_0) {| answers := [0; 0] |} learner
               sample_store in
  find_user (snd out) (u_id learner) = Some learner /\
  transaction (snd out) = [] /\ notification (snd out) = [].
Proof.
  intros out.
  destruct (submit_quiz_never_pays (l_id lesson_0) {| answers := [0; 0] |}
              learner sample_store (fst out) (snd out))
    as (Hu & Ht & Hn).
  - unfold out. now destruct (submit_quiz _ _ _ _).
  - rewrite Hu, Ht, Hn. repeat split.
Defined.

(** ** More on the wallet *)

Lemma exchange_points_success payload usr db :
  find_user db (u_id usr) = Some usr ->
  0 < er_points payload / 100 ->
  let coins := er_points payload / 100 in
  exists db',
    exchange_points payload usr db =
      (inr {| ex_coins := dflt 0 (u_coins usr) + coins;
              ex_points := dflt 0 (u_points usr) - coins * 100 |}, db') /\
    find_user db' (u_id usr)
    = Some (inc_points_coins (- coins * 100) coins usr).
Proof.
  intros Hu Hc coins. unfold exchange_points.
  assert (Hp : 0 < er_points payload).
  { destruct (Z_lt_ge_dec 0 (er_points payload)) as [|Hn]; [assumption|].
    assert (er_points payload / 100 <= 0)
      by (apply Z.div_le_upper_bound; lia). lia. }
  destruct (Z.leb_spec (er_points payload) 0); [lia|].
  unfold COIN_TO_POINTS. fold coins.
  destruct (Z.leb_spec coins 0); [unfold coins in *; lia|].
  set (f := inc_points_coins (- coins * 100) coins).
  pose proof (find_user_update_user (u_id usr) f db usr
                (fun x => eq_refl) Hu) as Hf.
  set (db1 := update_user (u_id usr) f db) in *.
  cbn [create_transaction create_notification].
  unfold find_user in *. cbn [user]. rewrite Hf.
  assert (Hr : {| ex_coins := dflt 0 (u_coins (f usr));
                  ex_points := dflt 0 (u_points (f usr)) |}
               = {| ex_coins := dflt 0 (u_coins usr) + coins;
                    ex_points := dflt 0 (u_points usr) - coins * 100 |}).
  { cbn [f inc_points_coins u_coins u_points dflt]. f_equal; lia. }
  rewrite Hr. eexists. split; [reflexivity|exact Hf].
Qed.

(** X13.  An exchange converts at the fixed rate and keeps the remainder:
    the user's points plus 100 times the user's coins is the same before
    and after, the points taken are a multiple of 100, and fewer than 100
    of the requested points are left untaken. *)
Theorem exchange_points_conserves payload usr db r db' :
  find_user db (u_id usr) = Some usr ->
  exchange_points payload usr db = (inr r, db') ->
  exists u',
    find_user db' (u_id usr) = Some u' /\
    dflt 0 (u_points u') + 100 * dflt 0 (u_coins u')
    = dflt 0 (u_points usr) + 100 * dflt 0 (u_coins usr) /\
    let taken := dflt 0 (u_points usr) - dflt 0 (u_points u') in
    taken mod 100 = 0 /\ 0 <= er_points payload - taken < 100 /\
    r = {| ex_coins := dflt 0 (u_coins u');
           ex_points := dflt 0 (u_points u') |}.
Proof.
  intros Hu H.
  assert (Hc : 0 < er_points payload / 100).
  { unfold exchange_points in H.
    destruct (er_points payload <=? 0); [discriminate|].
    unfold COIN_TO_POINTS in H.
    destruct (Z.leb_spec (er_points payload / 100) 0); [discriminate|lia]. }
  destruct (exchange_points_success payload usr db Hu Hc) as (d & E & F).
  rewrite E in H. injection H as <- <-.
  eexists. split; [exact F|].
  cbn [inc_points_coins u_coins u_points dflt].
  pose proof (Z.div_mod (er_points payload) 100 ltac:(lia)) as Hdm.
  pose proof (Z.mod_pos_bound (er_points payload) 100 ltac:(lia)) as Hb.
  set (c := er_points payload / 100) in *.
  split; [lia|]. cbv zeta. split; [|split; [lia|f_equal; lia]].
  replace (dflt 0 (u_points usr) - (dflt 0 (u_points usr) + - c * 100))
    with (c * 100) by lia.
  apply Z.mod_mul. lia.
Qed.

Lemma exchange_points_conserves_witness :
  let out := exchange_points {| er_points := 250 |} learner sample_store in
  find_user sample_store (u_id learner) = Some learner /\
  exists u',
    find_user (snd out) (u_id learner) = Some u' /\
    dflt 0 (u_points u') + 100 * dflt 0 (u_coins u')
    = dflt 0 (u_points learner) + 100 * dflt 0 (u_coins learner).
Proof.
  intros out. split; [reflexivity|].
  destruct (exchange_points_conserves {| er_points := 250 |} learner
              sample_store {| ex_coins := 2; ex_points := -200 |} (snd out)
              eq_refl) as (u' & F & C & _).
  - vm_compute. reflexivity.
  - exists u'. split; assumption.
Defined.

Lemma find_user_update_user_other id f db other :
  (forall x, u_id (f x) = u_id x) -> other <> id ->
  find_user (update_user id f db) other = find_user db other.
Proof.
  intros Hf Hne. unfold find_user, update_user.
  destruct (update_first (fun x => (u_id x =? id)%string) f (user db))
    as [us|] eqn:E; [|reflexivity].
  cbn [user set_user].
  apply (find_update_first_other (fun x => (u_id x =? id)%string) _ f
           (user db)); [|exact E].
  intros x Hx. apply String.eqb_eq in Hx. rewrite Hf, Hx.
  split; apply String.eqb_neq; congruence.
Qed.

(** X14.  The wallet operations touch the caller's document only: after a
    purchase or an exchange, whatever its outcome, the store finds for
    every other identifier the user document it found before. *)
Theorem wallet_leaves_other_users usr db other :
  other <> u_id usr ->
  (forall payload,
     find_user (snd (buy_coins payload usr db)) other = find_user db other) /\
  (forall payload,
     find_user (snd (exchange_points payload usr db)) other
     = find_user db other).
Proof.
  intros Hne. split; intros payload.
  - unfold buy_coins.
    destruct (br_coins payload <=? 0); [reflexivity|].
    cbn [create_transaction create_notification].
    set (db1 := update_user (u_id usr) (inc_coins (br_coins payload)) db).
    assert (H : find_user db1 other = find_user db other)
      by (apply find_user_update_user_other; [reflexivity|exact Hne]).
    destruct (find_user _ (u_id usr)); cbn [snd]; exact H.
  - unfold exchange_points.
    destruct (er_points payload <=? 0); [reflexivity|].
    destruct (er_points payload / COIN_TO_POINTS <=? 0); [reflexivity|].
    cbn [create_transaction create_notification].
    set (db1 := update_user (u_id usr) _ db).
    assert (H : find_user db1 other = find_user db other)
      by (apply find_user_update_user_other; [reflexivity|exact Hne]).
    destruct (find_user _ (u_id usr)); cbn [snd]; exact H.
Qed.

Lemma wallet_leaves_other_users_witness :
  u_id teacher <> u_id learner /\
  find_user
    (snd (exchange_points {| er_points := 250 |} learner staffed_store))
    (u_id teacher) = Some teacher.
Proof.
  assert (Hne : u_id teacher <> u_id learner) by (vm_compute; discriminate).
  split; [exact Hne|].
  destruct (wallet_leaves_other_users learner staffed_store (u_id teacher)
              Hne) as [_ H].
  rewrite H. reflexivity.
Defined.

(** ** Sorted listings *)

Section Sorting.
Context {A : Type} (le : A -> A -> bool).
Hypothesis le_total : forall a b, le a b = true \/ le b a = true.

Lemma insert_by_perm x l : Permutation (insert_by le x l) (x :: l).
Proof.
  induction l as [|y rest IH]; cbn; [reflexivity|].
  destruct (le x y); [reflexivity|].
  rewrite IH. apply perm_swap.
Qed.

Lemma sort_by_perm l : Permutation (sort_by le l) l.
Proof.
  induction l as [|x rest IH]; cbn; [reflexivity|].
  rewrite insert_by_perm. now constructor.
Qed.

Lemma insert_by_sorted x l :
  LocallySorted (fun a b => le a b = true) l ->
  LocallySorted (fun a b => le a b = true) (insert_by le x l).
Proof.
  induction 1 as [|y|y z rest Hs IH Hyz]; cbn.
  - constructor.
  - destruct (le x y) eqn:E; repeat constructor; trivial.
    destruct (le_total x y); congruence.
  - destruct (le x y) eqn:E; [repeat constructor; trivial|].
    cbn in IH. destruct (le x z) eqn:E'.
    + repeat constructor; trivial. destruct (le_total x y); congruence.
    + constructor; trivial.
Qed.

Lemma sort_by_sorted l :
  LocallySorted (fun a b => le a b = true) (sort_by le l).
Proof.
  induction l as [|x rest IH]; cbn; [constructor|].
  now apply insert_by_sorted.
Qed.

End Sorting.

Lemma hd_sort_by_first_min {A} (key : A -> option Z) l :
  hd_error (sort_by (fun a b => negb (order_lt (key b) (key a))) l)
  = first_min (fun a b => order_lt (key a) (key b)) l.
Proof.
  induction l as [|x rest IH]; cbn [sort_by first_min]; [reflexivity|].
  rewrite <- IH.
  destruct (sort_by _ rest) as [|y s]; cbn; [reflexivity|].
  now destruct (order_lt (key y) (key x)).
Qed.

Lemma order_le_total (a b : option Z) :
  negb (order_lt b a) = true \/ negb (order_lt a b) = true.
Proof.
  destruct a as [x|], b as [y|]; cbn; auto.
  destruct (Z.ltb_spec y x), (Z.ltb_spec x y); cbn; auto. lia.
Qed.

(** X15.  [list_lessons] returns the lessons of the course, each document
    once, in non-decreasing order (a lesson without an order first), and
    the lesson it lists first is the one that enrolling unlocks. *)
Theorem list_lessons_spec course_id db :
  Permutation (list_lessons course_id db)
    (filter (fun l => (l_course_id l =? course_id)%string) (lesson db)) /\
  LocallySorted (fun a b => order_lt (l_order b) (l_order a) = false)
    (list_lessons course_id db) /\
  hd_error (list_lessons course_id db) = first_lesson db course_id.
Proof.
  unfold list_lessons, first_lesson. split; [apply sort_by_perm|]. split.
  - set (le := fun a b : LessonDoc => negb (order_lt (l_order b) (l_order a))).
    assert (Hs : LocallySorted (fun a b => le a b = true)
                   (sort_by le (filter (fun l =>
                      (l_course_id l =? course_id)%string) (lesson db)))).
    { apply sort_by_sorted. intros a b. apply order_le_total. }
    induction Hs as [|a|a b l Hs IH Hab]; constructor; trivial.
    unfold le in Hab. now apply negb_true_iff in Hab.
  - apply (hd_sort_by_first_min l_order).
Qed.

(** X16.  [list_notifications] returns the user's notifications, each
    document once and no one else's, in non-increasing order of
    identifier. *)
Theorem list_notifications_spec usr db :
  Permutation (list_notifications usr db)
    (filter (fun n => (n_user_id n =? u_id usr)%string) (notification db)) /\
  LocallySorted (fun a b => (n_id b <=? n_id a)%string = true)
    (list_notifications usr db) /\
  forall n, In n (list_notifications usr db) -> n_user_id n = u_id usr.
Proof.
  unfold list_notifications. split; [apply sort_by_perm|]. split.
  - apply (sort_by_sorted (fun a b => (n_id b <=? n_id a)%string)).
    intros a b. destruct (String.leb_total (n_id b) (n_id a)); auto.
  - intros n Hin.
    apply (Permutation_in _ (sort_by_perm _ _)) in Hin.
    apply filter_In in Hin. now apply String.eqb_eq.
Qed.

(** X17.  After a purchase that succeeded, the buyer's notification list
    holds the "Payment Successful" notice naming the amount. *)
Theorem buy_coins_notifies payload usr db r db' :
  find_user db (u_id usr) = Some usr ->
  buy_coins payload usr db = (inr r, db') ->
  exists n,
    In n (list_notifications usr db') /\
    n_title n = "Payment Successful" /\
    n_message n
    = ("Added " ++ str_of_int (br_coins payload) ++ " coins")%string /\
    n_type n = "success" /\ n_is_read n = false.
Proof.
  intros Hu H.
  assert (Hn : 0 < br_coins payload).
  { destruct (Z.leb_spec (br_coins payload) 0) as [Hle|Hlt]; [|exact Hlt].
    unfold buy_coins in H. apply Z.leb_le in Hle. rewrite Hle in H.
    discriminate H. }
  destruct (buy_coins_success payload usr db Hu Hn)
    as (db'' & i & j & E & _ & _ & N).
  rewrite E in H. injection H as _ <-.
  eexists. split.
  - unfold list_notifications.
    apply (Permutation_in _ (Permutation_sym (sort_by_perm _ _))).
    apply filter_In. rewrite N. split.
    + apply in_or_app. right. left. reflexivity.
    + cbn. apply String.eqb_refl.
  - repeat split.
Qed.

Lemma buy_coins_notifies_witness :
  let out := buy_coins {| br_coins := 10; br_payment_provider := "mock" |}
               learner sample_store in
  find_user sample_store (u_id learner) = Some learner /\
  fst out = inr {| bc_coins := 10; bc_message := "Coins added" |} /\
  exists n,
    In n (list_notifications learner (snd out)) /\
    n_title n = "Payment Successful" /\
    n_message n = "Added 10 coins" /\
    n_type n = "success" /\ n_is_read n = false.
Proof.
  intros out. split; [reflexivity|]. split; [reflexivity|].
  apply (buy_coins_notifies
           {| br_coins := 10; br_payment_provider := "mock" |} learner
           sample_store {| bc_coins := 10; bc_message := "Coins added" |}
           (snd out)); reflexivity.
Defined.

(** ** More on enrollment *)

Lemma enroll_first_time enr usr db :
  u_id usr = enr_user_id enr ->
  find_enrollment db (enr_user_id enr) (enr_course_id enr) = None ->
  exists eid db',
    enroll enr usr db = (inr (Enrolled eid), db') /\
    enrollment db' = enrollment db ++
      [{| e_id := eid; e_user_id := enr_user_id enr;
          e_course_id := enr_course_id enr; e_status := enr_status enr |}] /\
    lessonprogress db' = lessonprogress db ++
      match first_lesson db (enr_course_id enr) with
      | Some f =>
          [{| lp_id := generated_id (N.succ (next_id db));
              lp_user_id := enr_user_id enr;
              lp_course_id := Some (enr_course_id enr);
              lp_lesson_id := l_id f; lp_is_unlocked := Some true;
              lp_is_completed := Some false;
              lp_quiz_score := None; lp_quiz_total := None |}]
      | None => []
      end.
Proof.
  intros Hid Hnone. unfold enroll.
  rewrite Hid, String.eqb_refl, Hnone. cbn [negb create_enrollment].
  change (first_lesson _ (enr_course_id enr))
    with (first_lesson db (enr_course_id enr)).
  destruct (first_lesson db (enr_course_id enr)) as [f|].
  - cbn [create_lessonprogress]. eexists _, _.
    split; [reflexivity|]. split; reflexivity.
  - eexists _, _. split; [reflexivity|]. split; [reflexivity|].
    cbn. now rewrite app_nil_r.
Qed.

(** X18.  [enroll] refuses to enroll anyone but the caller (403, store
    untouched); whatever its outcome it only appends: every enrollment and
    progress record stays in place, and users, lessons, quizzes,
    transactions and notifications are as before. *)
Theorem enroll_only_appends enr usr db res db' :
  enroll enr usr db = (res, db') ->
  (u_id usr <> enr_user_id enr ->
   res = inl (HTTPException 403 "Cannot enroll for another user") /\
   db' = db) /\
  (exists es, enrollment db' = enrollment db ++ es) /\
  (exists ps, lessonprogress db' = lessonprogress db ++ ps) /\
  user db' = user db /\ lesson db' = lesson db /\ quiz db' = quiz db /\
  transaction db' = transaction db /\ notification db' = notification db.
Proof.
  unfold enroll.
  destruct (String.eqb_spec (u_id usr) (enr_user_id enr)) as [Hid|Hid];
    cbn [negb].
  - destruct (find_enrollment db (enr_user_id enr) (enr_course_id enr)).
    + intros H. injection H as <- <-.
      split; [tauto|]. split; [exists []; now rewrite app_nil_r|].
      split; [exists []; now rewrite app_nil_r|]. repeat split.
    + cbn [create_enrollment].
      destruct (first_lesson _ (enr_course_id enr)) as [f|];
        cbn [create_lessonprogress]; intros H; injection H as <- <-;
        (split; [tauto|]); cbn.
      * split; [eexists; reflexivity|]. split; [eexists; reflexivity|].
        repeat split.
      * split; [eexists; reflexivity|].
        split; [exists []; now rewrite app_nil_r|]. repeat split.
  - intros H. injection H as <- <-.
    split; [auto|]. split; [exists []; now rewrite app_nil_r|].
    split; [exists []; now rewrite app_nil_r|]. repeat split.
Qed.

Lemma enroll_only_appends_witness :
  let enr := {| enr_user_id := u_id teacher;
                enr_course_id := l_course_id lesson_0;
                enr_status := "active" |} in
  u_id learner <> enr_user_id enr /\
  enroll enr learner staffed_store
  = (inl (HTTPException 403 "Cannot enroll for another user"),
     staffed_store).
Proof.
  intros enr.
  assert (Hne : u_id learner <> enr_user_id enr) by (vm_compute; discriminate).
  split; [exact Hne|].
  destruct (enroll_only_appends enr learner staffed_store
              (fst (enroll enr learner staffed_store))
              (snd (enroll enr learner staffed_store))) as [H _].
  - now destruct (enroll enr learner staffed_store).
  - destruct (H Hne) as [E1 E2].
    rewrite (surjective_pairing (enroll enr learner staffed_store)).
    now rewrite E1, E2.
Defined.

(** X19.  After a first enrollment in a course that has a lesson, the
    user's progress listing for the course shows an unlocked, not yet
    completed record for the course's lowest-order lesson. *)
Theorem enroll_lists_first_lesson enr usr db f :
  u_id usr = enr_user_id enr ->
  find_enrollment db (enr_user_id enr) (enr_course_id enr) = None ->
  first_lesson db (enr_course_id enr) = Some f ->
  enr_course_id enr <> "" ->
  exists eid db' lp,
    enroll enr usr db = (inr (Enrolled eid), db') /\
    In lp (my_progress (Some (enr_course_id enr)) usr db') /\
    lp_lesson_id lp = l_id f /\ lp_is_unlocked lp = Some true /\
    lp_is_completed lp = Some false.
Proof.
  intros Hid Hnone Hf Hc.
  destruct (enroll_first_time enr usr db Hid Hnone)
    as (eid & db' & E & _ & Hlp).
  rewrite Hf in Hlp.
  eexists eid, db', _. split; [exact E|]. split.
  - unfold my_progress. apply filter_In. rewrite Hlp. split.
    + apply in_or_app. right. left. reflexivity.
    + cbn [lp_user_id lp_course_id]. rewrite Hid, !String.eqb_refl.
      destruct (enr_course_id enr); [now elim Hc|reflexivity].
  - repeat split.
Qed.

Lemma enroll_lists_first_lesson_witness :
  let enr := {| enr_user_id := u_id learner;
                enr_course_id := l_course_id lesson_0;
                enr_status := "active" |} in
  first_lesson staffed_store (enr_course_id enr) = Some lesson_0 /\
  exists eid db' lp,
    enroll enr learner staffed_store = (inr (Enrolled eid), db') /\
    In lp (my_progress (Some (enr_course_id enr)) learner db') /\
    lp_lesson_id lp = l_id lesson_0 /\ lp_is_unlocked lp = Some true /\
    lp_is_completed lp = Some false.
Proof.
  intros enr. split; [reflexivity|].
  apply (enroll_lists_first_lesson enr learner staffed_store lesson_0);
    try reflexivity.
  vm_compute. discriminate.
Defined.

(** X20.  [enroll] inserts the first lesson's progress record without
    looking for one: when the user already has a record for that lesson
    (a quiz submission creates one without any enrollment), the pair has
    one record more afterwards, and the store's lookup still finds the
    old record, so the lesson's unlock state is what it was. *)
Theorem enroll_keeps_existing_record enr usr db f old :
  u_id usr = enr_user_id enr ->
  find_enrollment db (enr_user_id enr) (enr_course_id enr) = None ->
  first_lesson db (enr_course_id enr) = Some f ->
  find (lp_key (u_id usr) (l_id f)) (lessonprogress db) = Some old ->
  exists eid db',
    enroll enr usr db = (inr (Enrolled eid), db') /\
    find (lp_key (u_id usr) (l_id f)) (lessonprogress db') = Some old /\
    is_unlocked db' (u_id usr) (l_id f) = is_unlocked db (u_id usr) (l_id f)
    /\
    List.length (filter (lp_key (u_id usr) (l_id f)) (lessonprogress db'))
    = S (List.length
           (filter (lp_key (u_id usr) (l_id f)) (lessonprogress db))).
Proof.
  intros Hid Hnone Hf Hold.
  destruct (enroll_first_time enr usr db Hid Hnone)
    as (eid & db' & E & _ & Hlp).
  rewrite Hf in Hlp.
  assert (Hfind : find (lp_key (u_id usr) (l_id f)) (lessonprogress db')
                  = Some old)
    by (rewrite Hlp, find_snoc, Hold; reflexivity).
  exists eid, db'. split; [exact E|]. split; [exact Hfind|]. split.
  - unfold is_unlocked. now rewrite Hfind, Hold.
  - rewrite Hlp, filter_app, length_app. cbn [filter].
    rewrite <- Hid, new_record_key. cbn [List.length]. lia.
Qed.

Lemma enroll_keeps_existing_record_witness :
  let db1 := snd (submit_quiz (l_id lesson_0) {| answers := [] |} learner
                    staffed_store) in
  let enr := {| enr_user_id := u_id learner;
                enr_course_id := l_course_id lesson_0;
                enr_status := "active" |} in
  exists eid db',
    enroll enr learner db1 = (inr (Enrolled eid), db') /\
    is_unlocked db' (u_id learner) (l_id lesson_0) = false /\
    List.length
      (filter (lp_key (u_id learner) (l_id lesson_0)) (lessonprogress db'))
    = 2%nat.
Proof.
  intros db1 enr.
  destruct (find (lp_key (u_id learner) (l_id lesson_0)) (lessonprogress db1))
    as [old|] eqn:Eold; [|vm_compute in Eold; discriminate].
  destruct (enroll_keeps_existing_record enr learner db1 lesson_0 old)
    as (eid & db' & E & _ & Hu & Hc); try reflexivity; [exact Eold|].
  exists eid, db'. split; [exact E|]. split.
  - rewrite Hu. reflexivity.
  - rewrite Hc. reflexivity.
Defined.

(** ** My courses *)

Lemma oid_all_invalid l s :
  In s l -> ObjectId_of_str s = None ->
  oid_all l = inl (HTTPException 400 "Invalid id").
Proof.
  induction l as [|x rest IH]; cbn [oid_all In]; intros Hin Hs; [tauto|].
  unfold oid at 1. destruct (ObjectId_of_str x) as [o|] eqn:Ex; [|reflexivity].
  destruct Hin as [->|Hin]; [congruence|].
  now rewrite (IH Hin Hs).
Qed.

Lemma oid_all_ok l : forall ids,
  oid_all l = inr ids ->
  forall o, In o ids -> exists s, In s l /\ ObjectId_of_str s = Some o.
Proof.
  induction l as [|x rest IH]; cbn [oid_all]; intros ids H o Ho.
  - injection H as <-. contradiction.
  - unfold oid in H at 1.
    destruct (ObjectId_of_str x) as [ox|] eqn:Ex; [|discriminate].
    destruct (oid_all rest) as [e|os]; [discriminate|].
    injection H as <-. destruct Ho as [<-|Ho].
    + exists x. split; [now left|exact Ex].
    + destruct (IH os eq_refl o Ho) as (s & Hs & Hso).
      exists s. split; [now right|exact Hso].
Qed.

Lemma my_courses_malformed course usr db e :
  In e (enrollment db) -> e_user_id e = u_id usr ->
  ObjectId_of_str (e_course_id e) = None ->
  my_courses course usr db = inl (HTTPException 400 "Invalid id").
Proof.
  intros Hin Hu Hbad. unfold my_courses.
  set (ids := map e_course_id
                (filter (fun x => (e_user_id x =? u_id usr)%string)
                   (enrollment db))).
  assert (Hid : In (e_course_id e) ids).
  { unfold ids. apply in_map. apply filter_In. split; [exact Hin|].
    now apply String.eqb_eq. }
  rewrite (oid_all_invalid ids _ Hid Hbad).
  destruct ids; [contradiction|reflexivity].
Qed.

(** X21.  [enroll] accepts any text as a course identifier, and
    [my_courses] parses every course identifier of the user's
    enrollments: once a user has enrolled under a malformed identifier,
    the user's course listing answers 400 whatever the catalogue holds. *)
Theorem enroll_malformed_course_breaks_my_courses enr usr db :
  u_id usr = enr_user_id enr ->
  find_enrollment db (enr_user_id enr) (enr_course_id enr) = None ->
  ObjectId_of_str (enr_course_id enr) = None ->
  exists eid db',
    enroll enr usr db = (inr (Enrolled eid), db') /\
    forall course,
      my_courses course usr db' = inl (HTTPException 400 "Invalid id").
Proof.
  intros Hid Hnone Hbad.
  destruct (enroll_first_time enr usr db Hid Hnone)
    as (eid & db' & E & He & _).
  exists eid, db'. split; [exact E|]. intros course.
  apply (my_courses_malformed course usr db'
           {| e_id := eid; e_user_id := enr_user_id enr;
              e_course_id := enr_course_id enr;
              e_status := enr_status enr |}).
  - rewrite He. apply in_or_app. right. now left.
  - cbn. now symmetry.
  - exact Hbad.
Qed.

Lemma enroll_malformed_course_breaks_my_courses_witness :
  let enr := {| enr_user_id := u_id learner; enr_course_id := "algebra";
                enr_status := "active" |} in
  ObjectId_of_str (enr_course_id enr) = None /\
  exists eid db',
    enroll enr learner sample_store = (inr (Enrolled eid), db') /\
    forall course,
      my_courses course learner db' = inl (HTTPException 400 "Invalid id").
Proof.
  intros enr. split; [reflexivity|].
  apply (enroll_malformed_course_breaks_my_courses enr learner sample_store);
    reflexivity.
Defined.

(** X22.  When [my_courses] answers, every course it lists is a course of
    the catalogue whose identifier is the parsed course identifier of one
    of the caller's own enrollments; a caller without enrollments gets the
    empty list. *)
Theorem my_courses_only_enrolled course usr db cs :
  my_courses course usr db = inr cs ->
  (forall c, In c cs ->
     In c course /\
     exists e, In e (enrollment db) /\ e_user_id e = u_id usr /\
               ObjectId_of_str (e_course_id e) = Some (c_id c)) /\
  ((forall e, In e (enrollment db) -> e_user_id e <> u_id usr) -> cs = []).
Proof.
  unfold my_courses.
  set (ens := filter (fun x => (e_user_id x =? u_id usr)%string)
                (enrollment db)).
  intros H. split.
  - intros c Hc.
    destruct (map e_course_id ens) as [|s0 rest] eqn:Em;
      [injection H as <-; contradiction|].
    rewrite <- Em in H.
    destruct (oid_all (map e_course_id ens)) as [e|ids] eqn:Eo;
      [discriminate|].
    injection H as <-. apply filter_In in Hc. destruct Hc as [Hin Hex].
    split; [exact Hin|].
    apply existsb_exists in Hex. destruct Hex as (o & Ho & Heq).
    apply String.eqb_eq in Heq. subst o.
    destruct (oid_all_ok _ _ Eo _ Ho) as (s & Hs & Hso).
    apply in_map_iff in Hs. destruct Hs as (e & <- & He).
    apply filter_In in He. destruct He as [He Hu].
    apply String.eqb_eq in Hu. exists e. auto.
  - intros Hno.
    assert (Hens : ens = []).
    { unfold ens. destruct (filter _ (enrollment db)) as [|e l] eqn:F;
        [reflexivity|].
      assert (Hin : In e (filter (fun x => (e_user_id x =? u_id usr)%string)
                            (enrollment db))) by (rewrite F; now left).
      apply filter_In in Hin. destruct Hin as [Hin Hu].
      apply String.eqb_eq in Hu. now elim (Hno e Hin). }
    rewrite Hens in H. cbn in H. congruence.
Qed.

Lemma my_courses_only_enrolled_witness :
  let arithmetic :=
    {| c_id := l_course_id lesson_0; c_title := "Arithmetic";
       c_category := "LP"; c_subcategory := None; c_price_rupees := 0 |} in
  let geometry :=
    {| c_id := "6500000000000000000000c1"; c_title := "Geometry";
       c_category := "LP"; c_subcategory := None; c_price_rupees := 10 |} in
  let db :=
    snd (enroll {| enr_user_id := u_id learner;
                   enr_course_id := l_course_id lesson_0;
                   enr_status := "active" |} learner sample_store) in
  my_courses [geometry; arithmetic] learner db = inr [arithmetic] /\
  forall c, In c [arithmetic] ->
    In c [geometry; arithmetic] /\
    exists e, In e (enrollment db) /\ e_user_id e = u_id learner /\
              ObjectId_of_str (e_course_id e) = Some (c_id c).
Proof.
  intros arithmetic geometry db.
  assert (E : my_courses [geometry; arithmetic] learner db
              = inr [arithmetic]) by (vm_compute; reflexivity).
  split; [exact E|].
  apply (my_courses_only_enrolled [geometry; arithmetic] learner db
           [arithmetic] E).
Defined.

(** ** Balances over time *)

Lemma find_user_ext db1 db id :
  user db1 = user db -> find_user db1 id = find_user db id.
Proof. unfold find_user. now intros ->. Qed.

Lemma find_user_update_any a f db id u :
  (forall x, u_id (f x) = u_id x) ->
  find_user db id = Some u ->
  find_user (update_user a f db) id = Some u \/
  find_user (update_user a f db) id = Some (f u).
Proof.
  intros Hf Hu. destruct (string_dec id a) as [->|Hne].
  - right. now apply find_user_update_user.
  - left. rewrite find_user_update_user_other; trivial.
Qed.

Lemma enroll_keeps_users enr usr db :
  user (snd (enroll enr usr db)) = user db.
Proof.
  unfold enroll. destruct (negb _); [reflexivity|].
  destruct (find_enrollment _ _ _); [reflexivity|].
  cbn [create_enrollment].
  destruct (first_lesson _ _); reflexivity.
Qed.

Lemma with_current_user_keeps {A} (P : Store -> Prop)
  (body : UserDoc -> Store -> result A * Store) h db :
  P db -> (forall u, P (snd (body u db))) ->
  P (snd (with_current_user body h db)).
Proof.
  intros H0 Hb. unfold with_current_user.
  destruct (current_user h db); [exact H0|apply Hb].
Qed.

Lemma with_admin_keeps {A} (P : Store -> Prop)
  (body : Store -> result A * Store) h db :
  P db -> P (snd (body db)) -> P (snd (with_admin body h db)).
Proof.
  intros H0 Hb. unfold with_admin.
  destruct (current_user h db) as [|u]; [exact H0|].
  destruct (admin_required u); [exact H0|exact Hb].
Qed.

Lemma serve_balances r db id u :
  find_user db id = Some u ->
  exists u',
    find_user (serve r db) id = Some u' /\
    dflt 0 (u_points u') <= dflt 0 (u_points u) /\
    dflt 0 (u_coins u) <= dflt 0 (u_coins u').
Proof.
  intros Hu.
  assert (Hsame : forall d, user d = user db ->
            exists u', find_user d id = Some u' /\
              dflt 0 (u_points u') <= dflt 0 (u_points u) /\
              dflt 0 (u_coins u) <= dflt 0 (u_coins u')).
  { intros d Hd. exists u. rewrite (find_user_ext d db id Hd).
    repeat split; trivial; lia. }
  destruct r as [enr h|l p h|p h|p h|l q h|req h]; cbn [serve].
  - apply with_current_user_keeps; [now apply Hsame|].
    intros usr. apply Hsame, enroll_keeps_users.
  - apply with_current_user_keeps; [now apply Hsame|].
    intros usr. apply Hsame.
    destruct (submit_quiz l p usr db) as [res d] eqn:E.
    now destruct (submit_quiz_keeps_collections _ _ _ _ _ _ E) as [H _].
  - apply with_current_user_keeps; [now apply Hsame|].
    intros usr. unfold buy_coins.
    destruct (Z.leb_spec (br_coins p) 0) as [|Hn]; [now apply Hsame|].
    cbn [create_transaction create_notification].
    set (db1 := update_user (u_id usr) (inc_coins (br_coins p)) db).
    assert (H1 : exists u',
              find_user db1 id = Some u' /\
              dflt 0 (u_points u') <= dflt 0 (u_points u) /\
              dflt 0 (u_coins u) <= dflt 0 (u_coins u')).
    { destruct (find_user_update_any (u_id usr) (inc_coins (br_coins p)) db
                  id u (fun x => eq_refl) Hu) as [Hx|Hx];
        eexists; (split; [exact Hx|]);
        cbn [inc_coins u_coins u_points dflt]; lia. }
    destruct (find_user _ (u_id usr)); cbn [snd]; exact H1.
  - apply with_current_user_keeps; [now apply Hsame|].
    intros usr. unfold exchange_points.
    destruct (Z.leb_spec (er_points p) 0); [now apply Hsame|].
    unfold COIN_TO_POINTS.
    destruct (Z.leb_spec (er_points p / 100) 0) as [|Hc]; [now apply Hsame|].
    cbn [create_transaction create_notification].
    set (c := er_points p / 100) in *.
    set (db1 := update_user (u_id usr) (inc_points_coins (- c * 100) c) db).
    assert (H1 : exists u',
              find_user db1 id = Some u' /\
              dflt 0 (u_points u') <= dflt 0 (u_points u) /\
              dflt 0 (u_coins u) <= dflt 0 (u_coins u')).
    { destruct (find_user_update_any (u_id usr)
                  (inc_points_coins (- c * 100) c) db
                  id u (fun x => eq_refl) Hu) as [Hx|Hx];
        eexists; (split; [exact Hx|]);
        cbn [inc_points_coins u_coins u_points dflt]; lia. }
    destruct (find_user _ (u_id usr)); cbn [snd]; exact H1.
  - apply with_admin_keeps; [now apply Hsame|].
    apply Hsame. unfold set_quiz.
    destruct (negb _); [reflexivity|]. cbn [snd]. unfold upsert_quiz.
    now destruct (update_first _ _ (quiz db)).
  - apply with_admin_keeps; [now apply Hsame|].
    apply Hsame. unfold admin_unlock.
    destruct (oid _) as [|o]; [reflexivity|].
    destruct (find_lesson db o); [|reflexivity].
    cbn [snd]. apply upsert_lessonprogress_frame.
Qed.

(** X23.  Over any sequence of the requests that write to the store
    (enroll, submit-quiz, buy-coins, exchange-points, set-quiz and the
    administrator's unlock), from any callers, no user document
    disappears, no user's points ever go up and no user's coins ever go
    down: nothing awards points and nothing spends coins. *)
Theorem balances_only_drift_one_way rs : forall db id u,
  find_user db id = Some u ->
  exists u',
    find_user (serve_all rs db) id = Some u' /\
    dflt 0 (u_points u') <= dflt 0 (u_points u) /\
    dflt 0 (u_coins u) <= dflt 0 (u_coins u').
Proof.
  unfold serve_all.
  induction rs as [|r rest IH]; intros db id u Hu; cbn [fold_left].
  - exists u. repeat split; trivial; lia.
  - destruct (serve_balances r db id u Hu) as (u1 & H1 & P1 & C1).
    destruct (IH (serve r db) id u1 H1) as (u2 & H2 & P2 & C2).
    exists u2. repeat split; trivial; lia.
Qed.

Lemma balances_only_drift_one_way_witness :
  let me := Some (u_id learner) in
  let rs :=
    [BuyCoins {| br_coins := 3; br_payment_provider := "mock" |} me;
     SubmitQuiz (l_id lesson_0) {| answers := [0; 0] |} me;
     ExchangePoints {| er_points := 250 |} me] in
  find_user sample_store (u_id learner) = Some learner /\
  exists u',
    find_user (serve_all rs sample_store) (u_id learner) = Some u' /\
    u_points u' = Some (-200) /\ u_coins u' = Some 5 /\
    dflt 0 (u_points u') <= dflt 0 (u_points learner) /\
    dflt 0 (u_coins learner) <= dflt 0 (u_coins u').
Proof.
  intros me rs. split; [reflexivity|].
  destruct (balances_only_drift_one_way rs sample_store (u_id learner)
              learner eq_refl) as (u' & F & P & C).
  exists u'. split; [exact F|].
  assert (E : find_user (serve_all rs sample_store) (u_id learner)
              = Some {| u_id := u_id learner; u_name := u_name learner;
                        u_email := u_email learner;
                        u_phone := u_phone learner;
                        u_role := u_role learner;
                        u_coins := Some 5; u_points := Some (-200) |})
    by (vm_compute; reflexivity).
  rewrite E in F. injection F as <-. repeat split; assumption.
Defined.
